(** * httpclient: the request/response pipeline of [httpclient.go]

    A shallow embedding of the Go package [httpclient]: the content codec
    ([marshal], [unmarshal]), the request builder ([NewRequest]), the
    dispatcher ([Do]), the default callbacks and the body splitter
    ([drainBody]).

    Go values that live behind pointers or interfaces (response structs,
    body streams, unmarshal targets, writers) are kept in an explicit store,
    [World]; a Go function that touches them is a computation in the small
    state-and-panic monad [M].  A Go [panic] is the result [Panic]; a Go
    [(x, err)] return is a pair whose second component is an [option error]
    ([None] is Go's [nil] error). *)

From Stdlib Require Import ZArith String Ascii List Bool Lia DecimalString.
From stdpp Require Import base list.
From stdpp Require Import strings gmap.
Import ListNotations.

Local Open Scope string_scope.
Local Open Scope Z_scope.
Local Open Scope list_scope.

(** ** Errors *)

(** Go compares the package-level error variables by identity, so the two
    sentinels are constructors of their own: no [errors.New] made later is
    equal to them, whatever its text. *)
Inductive error : Type :=
| ErrUnknownContentType
| ErrTooManyRequest
| errors_New (msg : string)
| errors_Wrap (cause : error) (msg : string).

(** [err.Error()]; [errors.Wrap(err, msg)] prints as [msg: err]. *)
Fixpoint Error (e : error) : string :=
  match e with
  | ErrUnknownContentType => "unknown media type"
  | ErrTooManyRequest => "too many requests"
  | errors_New msg => msg
  | errors_Wrap cause msg => String.append msg (String.append ": " (Error cause))
  end.

(** [errors.Cause(err)]: the innermost wrapped error. *)
Fixpoint Cause (e : error) : error :=
  match e with
  | errors_Wrap cause _ => Cause cause
  | _ => e
  end.

(** ** Constants *)

Definition ContentTypeText : string := "text/plain".
Definition ContentTypeJSON : string := "application/json".
Definition ContentTypeYAML : string := "application/yaml".

(** ** Byte streams: [io.ReadCloser] *)

Abbreviation bytes := (list Byte.byte).

(** The streams the package meets: a response body handed out by the
    transport, whose reads fail once it is closed, and the
    [ioutil.NopCloser] wrappers that [drainBody] builds over a buffer, whose
    [Close] does nothing. *)
Inductive StreamKind : Type := NetBody | NopCloser.

Record Stream : Type := mkStream {
  skind : StreamKind;
  sdata : bytes;               (* content not read yet *)
  srerr : option error;        (* what the read after [sdata] reports: [None] is io.EOF *)
  scerr : option error;        (* what [Close] reports *)
  sclosed : bool
}.

(** An interface value of type [io.ReadCloser]: the nil interface, the
    sentinel [http.NoBody], or a reference to a stream of the store. *)
Inductive ReadCloser : Type :=
| RCnil
| NoBody
| RCref (l : nat).

Definition errBodyReadAfterClose : error :=
  errors_New "http: read on closed response body".

(** Reading a stream to its end, as [bytes.Buffer.ReadFrom] and
    [ioutil.ReadAll] do: the bytes obtained, and the error unless the stream
    ended with io.EOF. *)
Definition stream_read_all (s : Stream) : Stream * (bytes * option error) :=
  match skind s, sclosed s with
  | NetBody, true => (s, ([], Some errBodyReadAfterClose))
  | _, _ => (mkStream (skind s) [] (srerr s) (scerr s) (sclosed s), (sdata s, srerr s))
  end.

(** [Close]: a no-op on a NopCloser; on a body, a failed close leaves the
    stream open. *)
Definition stream_close (s : Stream) : Stream * option error :=
  match skind s with
  | NopCloser => (s, None)
  | NetBody =>
      match scerr s with
      | Some e => (s, Some e)
      | None => (mkStream NetBody (sdata s) (srerr s) None true, None)
      end
  end.

(** ** Values behind [interface{}] *)

Inductive GoType : Type := TInt | TString | TNamed (name : string).

Inductive Value : Type :=
| VNil                                   (* the nil interface *)
| VInt (n : Z)
| VString (s : string)
| VStringer (name : string) (text : string)  (* a named type with a String() method *)
| VPtr (t : GoType) (l : nat)            (* a pointer to a cell holding a t *)
| VWriter (l : nat).                     (* a value implementing io.Writer *)

(** An [io.Writer]: what it has accepted so far, and the error its [Write]
    reports, if it is a failing one. *)
Record Writer : Type := mkWriter {
  wbuf : bytes;
  wfail : option error
}.

Definition Write (w : Writer) (p : bytes) : Writer * option error :=
  match wfail w with
  | Some e => (w, Some e)
  | None => (mkWriter (wbuf w ++ p) None, None)
  end.

(** [new(bytes.Buffer)] *)
Definition new_Buffer : Writer := mkWriter [] None.

(** ** Requests and responses *)

(** [http.Header]: keys with their value lists, in insertion order. The keys
    set by this package are already in canonical form. *)
Definition Header : Type := list (string * list string).

Fixpoint Header_Add (h : Header) (k v : string) : Header :=
  match h with
  | [] => [(k, [v])]
  | (k', vs) :: h' =>
      if String.eqb k k' then (k', vs ++ [v]) :: h'
      else (k', vs) :: Header_Add h' k v
  end.

Fixpoint Header_Set (h : Header) (k v : string) : Header :=
  match h with
  | [] => [(k, [v])]
  | (k', vs) :: h' =>
      if String.eqb k k' then (k', [v]) :: h'
      else (k', vs) :: Header_Set h' k v
  end.

Fixpoint Header_Get (h : Header) (k : string) : list string :=
  match h with
  | [] => []
  | (k', vs) :: h' => if String.eqb k k' then vs else Header_Get h' k
  end.

Record Request : Type := mkRequest {
  Method : string;
  URLString : string;
  ReqHeader : Header;
  ReqBody : bytes
}.

Record Response : Type := mkResponse {
  StatusCode : Z;
  Status : string;
  Body : ReadCloser
}.

Definition set_Body (r : Response) (b : ReadCloser) : Response :=
  mkResponse (StatusCode r) (Status r) b.

(** [context.Context], as far as the package looks at it. *)
Record Context : Type := mkContext { ctx_done : bool }.

(** ** The store *)

Record World : Type := mkWorld {
  streams : list Stream;          (* io.ReadCloser objects *)
  resps : list Response;          (* http.Response structs *)
  cells : list Value;             (* targets of pointers *)
  writers : list Writer;          (* io.Writer objects *)
  calls : list (Context * Request) (* requests handed to the transport, oldest first *)
}.

Definition set_streams (w : World) (ss : list Stream) : World :=
  mkWorld ss (resps w) (cells w) (writers w) (calls w).
Definition set_resps (w : World) (rs : list Response) : World :=
  mkWorld (streams w) rs (cells w) (writers w) (calls w).
Definition set_cells (w : World) (cs : list Value) : World :=
  mkWorld (streams w) (resps w) cs (writers w) (calls w).
Definition set_writers (w : World) (ws : list Writer) : World :=
  mkWorld (streams w) (resps w) (cells w) ws (calls w).
Definition log_call (w : World) (c : Context * Request) : World :=
  mkWorld (streams w) (resps w) (cells w) (writers w) (calls w ++ [c]).

(** ** Computations that may panic *)

Inductive Result (A : Type) : Type :=
| Ret (a : A) (w : World)
| Panic (msg : string) (w : World).
Arguments Ret {A} a w.
Arguments Panic {A} msg w.

Definition M (A : Type) : Type := World -> Result A.

Definition ret {A} (a : A) : M A := fun w => Ret a w.
Definition panic {A} (msg : string) : M A := fun w => Panic msg w.
Definition bind {A B} (m : M A) (k : A -> M B) : M B :=
  fun w => match m w with
           | Ret a w' => k a w'
           | Panic msg w' => Panic msg w'
           end.

Declare Scope go_scope.
Delimit Scope go_scope with go.
Notation "x <- c1 ;; c2" := (bind c1 (fun x => c2))
  (at level 100, c1 at next level, right associativity) : go_scope.
Local Open Scope go_scope.

Definition nil_deref : string :=
  "runtime error: invalid memory address or nil pointer dereference".

(** *** Stream operations on the store *)

(** Reading an [io.Reader] to its end. Calling a method of the nil interface
    panics; [http.NoBody] reports io.EOF at once. *)
Definition ReadAll (b : ReadCloser) : M (bytes * option error) :=
  fun w =>
    match b with
    | RCnil => Panic nil_deref w
    | NoBody => Ret ([], None) w
    | RCref l =>
        match streams w !! l with
        | None => Panic nil_deref w
        | Some s =>
            let '(s', out) := stream_read_all s in
            Ret out (set_streams w (<[l := s']> (streams w)))
        end
    end.

Definition Close (b : ReadCloser) : M (option error) :=
  fun w =>
    match b with
    | RCnil => Panic nil_deref w
    | NoBody => Ret None w
    | RCref l =>
        match streams w !! l with
        | None => Panic nil_deref w
        | Some s =>
            let '(s', out) := stream_close s in
            Ret out (set_streams w (<[l := s']> (streams w)))
        end
    end.

(** [ioutil.NopCloser(r)] over a reader holding [data]: a new stream. *)
Definition new_NopCloser (data : bytes) : M ReadCloser :=
  fun w =>
    Ret (RCref (length (streams w)))
        (set_streams w (streams w ++ [mkStream NopCloser data None None false])).

Definition is_NoBody (b : ReadCloser) : bool :=
  match b with NoBody => true | _ => false end.

(** ** [drainBody] *)

Definition drainBody (b : ReadCloser)
  : M (ReadCloser * ReadCloser * option error) :=
  if is_NoBody b then
    (* No copying needed. Preserve the magic sentinel meaning of NoBody. *)
    ret (NoBody, NoBody, None)
  else
    rd <- ReadAll b ;;
    let '(buf, err) := rd in
    match err with
    | Some e => ret (RCnil, b, Some e)
    | None =>
        cerr <- Close b ;;
        match cerr with
        | Some e => ret (RCnil, b, Some e)
        | None =>
            r1 <- new_NopCloser buf ;;
            r2 <- new_NopCloser buf ;;
            ret (r1, r2, None)
        end
    end.

(** ** The packages the code imports *)

(** What [net/url], [net/http], [fmt], [encoding/json], [yaml] and the
    network do is not code of this package: it is taken as given. *)
Record Lib : Type := mkLib {
  URL : Type;
  url_Parse : string -> error + URL;
  ResolveReference : URL -> URL -> URL;
  URL_String : URL -> string;
  (* the checks of http.NewRequest on the method and the address *)
  http_NewRequest_err : string -> string -> option error;
  (* the address that the new request carries, as text: http.NewRequest
     parses the address again and removes an empty port from the host *)
  http_NewRequest_URL : string -> string;
  (* the base64 credentials of Request.SetBasicAuth *)
  basicAuth : string -> string -> string;
  (* fmt.Sprint: every value has a rendering *)
  fmt_Sprint : Value -> string;
  json_Marshal : Value -> error + bytes;
  yaml_Marshal : Value -> error + bytes;
  (* json.NewDecoder(r).Decode(v), from what the reader delivers *)
  json_Decode : bytes -> option error -> Value -> list Value -> list Value * option error;
  yaml_Unmarshal : bytes -> Value -> list Value -> list Value * option error;
  (* the Do method of the http.Client that New builds *)
  http_DefaultClient_Do : Context -> Request -> M (option nat * option error)
}.

Inductive Outcome (A : Type) : Type :=
| Returned (a : A)
| Panicked (msg : string).
Arguments Returned {A} a.
Arguments Panicked {A} msg.

(** ** Function-valued fields of the client *)

(** [RequestCallbackFunc]: the request the callback returns, [None] when
    it returns nil. *)
Definition RequestCallbackFunc : Type := Request -> option Request.

(** [ResponseCallbackFunc]; a response pointer is an index of [resps], or
    [None] for nil. *)
Definition ResponseCallbackFunc : Type := option nat -> M (option nat * option error).

(** [MarshalerFunc], on the writer it is given *)
Definition MarshalerFunc : Type := Writer -> Value -> string -> Writer * (string * option error).

(** [UnmarshalerFunc], on the reader it is given *)
Definition UnmarshalerFunc : Type := ReadCloser -> Value -> string -> M (option error).

(** The [Do] method of [http.Client], and the verdict of the [Wait] method
    of [rate.Limiter]. *)
Definition HTTPClient : Type := Context -> Request -> M (option nat * option error).
Definition Limiter : Type := Context -> option error.

Section Pipeline.

Context (L : Lib).

Record Client : Type := mkClient {
  client : HTTPClient;
  limiter : option Limiter;
  BaseURL : URL L;
  ContentType : string;
  username : string;
  password : string;
  keepResponseBody : bool;
  header : option Header;
  Marshaler : option MarshalerFunc;
  Unmarshaler : option UnmarshalerFunc;
  RequestCallback : option RequestCallbackFunc;
  ResponseCallback : option ResponseCallbackFunc
}.

Definition set_header (c : Client) (h : option Header) : Client :=
  mkClient (client c) (limiter c) (BaseURL c) (ContentType c) (username c)
           (password c) (keepResponseBody c) h (Marshaler c) (Unmarshaler c)
           (RequestCallback c) (ResponseCallback c).

(** ** The codec: marshalling *)

(** [json.NewEncoder(w).Encode(v)] *)
Definition MarshalJSON (w : Writer) (v : Value) (mediaType : string)
  : Writer * option error :=
  match json_Marshal L v with
  | inl e => (w, Some e)
  | inr b => Write w b
  end.

Definition MarshalYAML (w : Writer) (v : Value) (mediaType : string)
  : Writer * option error :=
  match yaml_Marshal L v with
  | inl e => (w, Some e)
  | inr b => Write w b
  end.

(** [fmt.Fprint(w, v)]: the rendering of [v] is written to [w]; the only
    error is the writer's. *)
Definition fmt_Fprint (w : Writer) (v : Value) : Writer * option error :=
  Write w (list_byte_of_string (fmt_Sprint L v)).

Definition is_nil (v : Value) : bool :=
  match v with VNil => true | _ => false end.

(** [marshal] is the default marshaler. *)
Definition marshal (w : Writer) (v : Value) (mediaType : string)
  : Writer * (string * option error) :=
  if is_nil v then (w, (mediaType, None))
  else if String.eqb mediaType ContentTypeJSON then
    let '(w', err) := MarshalJSON w v mediaType in (w', (ContentTypeJSON, err))
  else if String.eqb mediaType ContentTypeYAML then
    let '(w', err) := MarshalYAML w v mediaType in (w', (ContentTypeYAML, err))
  else if String.eqb mediaType ContentTypeText then
    let '(w', err) := fmt_Fprint w v in (w', (ContentTypeText, err))
  else (w, (mediaType, Some (errors_Wrap ErrUnknownContentType mediaType))).

(** ** The codec: unmarshalling *)

(** [w.Write(p)] on the writer at [l]. *)
Definition write_to (l : nat) (p : bytes) : M (option error) :=
  fun w =>
    match writers w !! l with
    | None => Panic nil_deref w
    | Some wr =>
        let '(wr', err) := Write wr p in
        Ret err (set_writers w (<[l := wr']> (writers w)))
    end.

(** [io.Copy(w, r)]: what was read is written before a read error is
    reported; nothing is written when nothing was read. *)
Definition io_Copy (l : nat) (r : ReadCloser) : M (option error) :=
  rd <- ReadAll r ;;
  let '(data, rerr) := rd in
  match data with
  | [] => ret rerr
  | _ =>
      werr <- write_to l data ;;
      match werr with
      | Some e => ret (Some e)
      | None => ret rerr
      end
  end.

(** [json.NewDecoder(r).Decode(v)]; the decoder is let to read [r] to its
    end. *)
Definition UnmarshalJSON (r : ReadCloser) (v : Value) (mediaType : string)
  : M (option error) :=
  rd <- ReadAll r ;;
  let '(data, rerr) := rd in
  fun w =>
    let '(cs, err) := json_Decode L data rerr v (cells w) in
    Ret err (set_cells w cs).

Definition UnmarshalYAML (r : ReadCloser) (v : Value) (mediaType : string)
  : M (option error) :=
  rd <- ReadAll r ;;
  let '(data, err) := rd in
  match err with
  | Some e => ret (Some e)
  | None =>
      fun w =>
        let '(cs, err) := yaml_Unmarshal L data v (cells w) in
        Ret err (set_cells w cs)
  end.

(** [*x = s] for [x] pointing to cell [l]. *)
Definition store_cell (l : nat) (x : Value) : M unit :=
  fun w =>
    match cells w !! l with
    | None => Panic nil_deref w
    | Some _ => Ret tt (set_cells w (<[l := x]> (cells w)))
    end.

(** The text branch of [unmarshal]: the target must be a string pointer. *)
Definition unmarshal_text (r : ReadCloser) (v : Value) : M (option error) :=
  match v with
  | VPtr TString l =>
      rd <- ReadAll r ;;
      let '(buf, err) := rd in
      match err with
      | Some e => ret (Some (errors_Wrap e "read into buffer"))
      | None =>
          _ <- store_cell l (VString (string_of_list_byte buf)) ;;
          ret None
      end
  | _ => ret (Some (errors_New "target type is not string"))
  end.

(** [unmarshal] is the default unmarshaler. *)
Definition unmarshal (r : ReadCloser) (v : Value) (mediaType : string)
  : M (option error) :=
  match v with
  | VNil => ret None
  | VWriter l =>
      (* if v is a io.Writer copy the request body to v *)
      io_Copy l r
  | _ =>
      if String.eqb mediaType ContentTypeJSON then UnmarshalJSON r v mediaType
      else if String.eqb mediaType ContentTypeYAML then UnmarshalYAML r v mediaType
      else if String.eqb mediaType ContentTypeText then unmarshal_text r v
      else ret (Some (errors_Wrap ErrUnknownContentType mediaType))
  end.

(** ** The default callbacks *)

(** [requestCallback] returns the unmodified request. *)
Definition requestCallback (r : Request) : option Request := Some r.

(** [responseCallback]: a response is an error if its status code is
    outside the 200 range. *)
Definition responseCallback (r : option nat) : M (option nat * option error) :=
  fun w =>
    match r with
    | None => Panic nil_deref w
    | Some l =>
        match resps w !! l with
        | None => Panic nil_deref w
        | Some R =>
            let c := StatusCode R in
            if (200 <=? c) && (c <=? 299) then Ret (r, None) w
            else Ret (r, Some (errors_New (Status R))) w
        end
    end.

(** ** Construction *)

(** [Opt]: an option applied to the client under construction. *)
Definition Opt : Type := Client -> error + Client.

Definition WithPassword (p : string) : Opt := fun c =>
  if Nat.eqb (String.length p) 0 then inl (errors_New "password cannot be empty")
  else inr (mkClient (client c) (limiter c) (BaseURL c) (ContentType c) (username c)
                     p (keepResponseBody c) (header c) (Marshaler c) (Unmarshaler c)
                     (RequestCallback c) (ResponseCallback c)).

Definition WithUsername (u : string) : Opt := fun c =>
  if Nat.eqb (String.length u) 0 then inl (errors_New "username cannot be empty")
  else inr (mkClient (client c) (limiter c) (BaseURL c) (ContentType c) u
                     (password c) (keepResponseBody c) (header c) (Marshaler c)
                     (Unmarshaler c) (RequestCallback c) (ResponseCallback c)).

Definition WithHTTPClient (t : HTTPClient) : Opt := fun c =>
  inr (mkClient t (limiter c) (BaseURL c) (ContentType c) (username c)
                (password c) (keepResponseBody c) (header c) (Marshaler c)
                (Unmarshaler c) (RequestCallback c) (ResponseCallback c)).

Definition WithRateLimiter (l : option Limiter) : Opt := fun c =>
  inr (mkClient (client c) l (BaseURL c) (ContentType c) (username c)
                (password c) (keepResponseBody c) (header c) (Marshaler c)
                (Unmarshaler c) (RequestCallback c) (ResponseCallback c)).

Definition WithContentType (ct : string) : Opt := fun c =>
  if Nat.eqb (String.length ct) 0 then inl (errors_New "content type cannot be empty")
  else inr (mkClient (client c) (limiter c) (BaseURL c) ct (username c)
                     (password c) (keepResponseBody c) (header c) (Marshaler c)
                     (Unmarshaler c) (RequestCallback c) (ResponseCallback c)).

Definition WithHeader (h : option Header) : Opt := fun c => inr (set_header c h).

Definition WithKeepResponseBody : Opt := fun c =>
  inr (mkClient (client c) (limiter c) (BaseURL c) (ContentType c) (username c)
                (password c) true (header c) (Marshaler c) (Unmarshaler c)
                (RequestCallback c) (ResponseCallback c)).

Fixpoint apply_opts (opts : list Opt) (c : Client) : error + Client :=
  match opts with
  | [] => inr c
  | opt :: rest =>
      match opt c with
      | inl err => inl err
      | inr c' => apply_opts rest c'
      end
  end.

(** [New] returns a new client instance. *)
Definition New (baseURL : string) (opts : list Opt) : error + Client :=
  match url_Parse L baseURL with
  | inl err => inl err
  | inr u =>
      apply_opts opts
        (mkClient (http_DefaultClient_Do L) None u ContentTypeJSON EmptyString EmptyString false None
                  (Some marshal) (Some unmarshal)
                  (Some requestCallback) (Some responseCallback))
  end.

(** ** [NewRequest] *)

(** [http.NewRequest] reads an empty method as GET. *)
Definition http_method (method : string) : string :=
  match method with
  | EmptyString => "GET"
  | _ => method
  end.

(** The request [http.NewRequest] builds once its checks pass, the one on
    the method being made after an empty method has become GET: the
    method, the address parsed again and normalised, an empty header and
    the buffer as body. *)
Definition http_NewRequest (method url : string) (body : bytes) : error + Request :=
  let method := http_method method in
  match http_NewRequest_err L method url with
  | Some e => inl e
  | None => inr (mkRequest method (http_NewRequest_URL L url) [] body)
  end.

Definition set_ReqHeader (r : Request) (h : Header) : Request :=
  mkRequest (Method r) (URLString r) h (ReqBody r).

(** [req.SetBasicAuth(username, password)] *)
Definition SetBasicAuth (h : Header) (u p : string) : Header :=
  Header_Set h "Authorization" (String.append "Basic " (basicAuth L u p)).

(** The header of the request once [NewRequest] has assembled it. When the
    client has a custom header, [req.Header = c.header] makes the two one
    map, and what is added to the request is added to the client's header
    as well. *)
Definition assemble_header (c : Client) (fresh : Header) (contentType : string) : Header :=
  let h := match header c with Some h => h | None => fresh end in
  let h := if (0 <? String.length (username c))%nat && (0 <? String.length (password c))%nat
           then SetBasicAuth h (username c) (password c) else h in
  let h := Header_Add h "Content-Type" contentType in
  Header_Add h "Accept" contentType.

(** [NewRequest] creates an API request. The result carries the client as
    the call leaves it, and the pair that the Go function returns. *)
Definition NewRequest (c : Client) (method urlStr : string) (body : Value)
  : Outcome (Client * (option Request * option error)) :=
  match url_Parse L urlStr with
  | inl err => Returned (c, (None, Some err))
  | inr rel =>
      let u := ResolveReference L (BaseURL c) rel in
      match Marshaler c with
      | None => Panicked "Marshaler is nil"
      | Some m =>
          let '(buf, (contentType, err)) := m new_Buffer body (ContentType c) in
          match err with
          | Some e => Returned (c, (None, Some e))
          | None =>
              match http_NewRequest method (URL_String L u) (wbuf buf) with
              | inl e => Returned (c, (None, Some e))
              | inr req =>
                  let h := assemble_header c (ReqHeader req) contentType in
                  let req := set_ReqHeader req h in
                  let c' := match header c with
                            | Some _ => set_header c (Some h)
                            | None => c
                            end in
                  match RequestCallback c with
                  | None => Panicked "RequestCallback is nil"
                  | Some cb => Returned (c', (cb req, None))
                  end
              end
          end
      end
  end.

(** ** [Do] *)

(** [resp.Body], for a response pointer that may be nil. *)
Definition get_Body (resp : option nat) : M ReadCloser :=
  fun w =>
    match resp with
    | None => Panic nil_deref w
    | Some l =>
        match resps w !! l with
        | None => Panic nil_deref w
        | Some R => Ret (Body R) w
        end
    end.

(** [resp.Body = b] *)
Definition put_Body (resp : option nat) (b : ReadCloser) : M unit :=
  fun w =>
    match resp with
    | None => Panic nil_deref w
    | Some l =>
        match resps w !! l with
        | None => Panic nil_deref w
        | Some R => Ret tt (set_resps w (<[l := set_Body R b]> (resps w)))
        end
    end.

(** [c.client.Do(req.WithContext(ctx))]; the call is entered in [calls]. *)
Definition client_Do (c : Client) (ctx : Context) (req : option Request)
  : M (option nat * option error) :=
  fun w =>
    match req with
    | None => Panic nil_deref w
    | Some rq => client c ctx rq (log_call w (ctx, rq))
    end.

(** The first [deferFunc]: [resp.Body.Close()]. Its assignment to [err]
    comes after the results of [Do] are fixed and changes none of them. *)
Definition defer_close (resp : option nat) : M unit :=
  b <- get_Body resp ;;
  _ <- Close b ;;
  ret tt.

(** The second [deferFunc]: [resp.Body = save]. *)
Definition defer_restore (save : ReadCloser) (resp : option nat) : M unit :=
  put_Body resp save.

(** The statements of [Do] after [defer deferFunc()], from the callback to
    the last return. The first component is the value the variable [resp]
    holds when the function is left, by a return or by a panic: it is the
    one the deferred closure sees. *)
Definition Do_protected (c : Client) (v : Value) (resp : option nat)
  : World -> option nat * Result (option nat * option error) :=
  fun w =>
    match ResponseCallback c with
    | None => (resp, Panic "ResponseCallback is nil" w)
    | Some cb =>
        match cb resp w with
        | Panic msg w1 => (resp, Panic msg w1)
        | Ret (resp', Some e) w1 => (resp', Ret (resp', Some e) w1)
        | Ret (resp', None) w1 =>
            match Unmarshaler c with
            | None => (resp', Panic "Unmarshaler is nil" w1)
            | Some um =>
                (resp', (b <- get_Body resp' ;;
                         err <- um b v (ContentType c) ;;
                         ret (resp', err)) w1)
            end
        end
    end.

(** Running the deferred closure when the function is left: after a return
    the results stand; a panic goes on, unless the closure panics itself. *)
Definition run_deferred {A} (deferFunc : option nat -> M unit)
  (exit : option nat * Result A) : Result A :=
  match exit with
  | (resp, Ret a w) =>
      match deferFunc resp w with
      | Ret _ w' => Ret a w'
      | Panic msg w' => Panic msg w'
      end
  | (resp, Panic msg w) =>
      match deferFunc resp w with
      | Ret _ w' => Panic msg w'
      | Panic msg' w' => Panic msg' w'
      end
  end.

(** The choice of [deferFunc]: closing the body, or, when the body is kept,
    splitting it first and putting the saved half back in the end. The
    error of [drainBody] goes to the blank identifier. *)
Definition manage_body (c : Client) (resp : option nat) : M (option nat -> M unit) :=
  if keepResponseBody c then
    b <- get_Body resp ;;
    drained <- drainBody b ;;
    let '(save, body', _) := drained in
    _ <- put_Body resp body' ;;
    ret (defer_restore save)
  else ret defer_close.

(** The verdict of the rate limiter, when there is one. *)
Definition limiter_Wait (c : Client) (ctx : Context) : option error :=
  match limiter c with
  | Some lim => lim ctx
  | None => None
  end.

(** [Do] sends an API request and returns the API response. *)
Definition Do (c : Client) (ctx : Context) (req : option Request) (v : Value)
  : M (option nat * option error) :=
  (* rate limit *)
  match limiter_Wait c ctx with
  | Some _ => ret (None, Some ErrTooManyRequest)
  | None =>
      sent <- client_Do c ctx req ;;
      match sent with
      | (resp, Some err) => ret (resp, Some err)
      | (resp, None) =>
          deferFunc <- manage_body c resp ;;
          fun w => run_deferred deferFunc (Do_protected c v resp w)
      end
  end.

End Pipeline.

Arguments client {L} c.
Arguments limiter {L} c.
Arguments BaseURL {L} c.
Arguments ContentType {L} c.
Arguments username {L} c.
Arguments password {L} c.
Arguments keepResponseBody {L} c.
Arguments header {L} c.
Arguments Marshaler {L} c.
Arguments Unmarshaler {L} c.
Arguments RequestCallback {L} c.
Arguments ResponseCallback {L} c.
Arguments set_header {L} c h.
Arguments assemble_header {L} c fresh contentType.
Arguments NewRequest {L} c method urlStr body.
Arguments client_Do {L} c ctx req.
Arguments Do_protected {L} c v resp.
Arguments manage_body {L} c resp.
Arguments limiter_Wait {L} c ctx.
Arguments Do {L} c ctx req v.

(** [c.client = t], as a test that swaps the transport does. *)
Definition set_client {L} (c : Client L) (t : HTTPClient) : Client L :=
  mkClient L t (limiter c) (BaseURL c) (ContentType c) (username c)
           (password c) (keepResponseBody c) (header c) (Marshaler c)
           (Unmarshaler c) (RequestCallback c) (ResponseCallback c).

(** [c.Marshaler = m] and the like: the fields are exported, and the tests
    assign nil to them. *)
Definition set_Marshaler {L} (c : Client L) (m : option MarshalerFunc) : Client L :=
  mkClient L (client c) (limiter c) (BaseURL c) (ContentType c) (username c)
           (password c) (keepResponseBody c) (header c) m (Unmarshaler c)
           (RequestCallback c) (ResponseCallback c).

Definition set_Unmarshaler {L} (c : Client L) (u : option UnmarshalerFunc) : Client L :=
  mkClient L (client c) (limiter c) (BaseURL c) (ContentType c) (username c)
           (password c) (keepResponseBody c) (header c) (Marshaler c) u
           (RequestCallback c) (ResponseCallback c).

Definition set_RequestCallback {L} (c : Client L) (cb : option RequestCallbackFunc)
  : Client L :=
  mkClient L (client c) (limiter c) (BaseURL c) (ContentType c) (username c)
           (password c) (keepResponseBody c) (header c) (Marshaler c)
           (Unmarshaler c) cb (ResponseCallback c).

Definition set_ResponseCallback {L} (c : Client L) (cb : option ResponseCallbackFunc)
  : Client L :=
  mkClient L (client c) (limiter c) (BaseURL c) (ContentType c) (username c)
           (password c) (keepResponseBody c) (header c) (Marshaler c)
           (Unmarshaler c) (RequestCallback c) cb.

Definition set_limiter {L} (c : Client L) (l : option Limiter) : Client L :=
  mkClient L (client c) l (BaseURL c) (ContentType c) (username c)
           (password c) (keepResponseBody c) (header c) (Marshaler c)
           (Unmarshaler c) (RequestCallback c) (ResponseCallback c).

(** ** Predicates used in the statements *)

(** The status codes that [responseCallback] lets through. *)
Definition status_2xx (code : Z) : Prop := 200 <= code <= 299.

(** A body as [http.Client] hands it out with a nil error: never the nil
    interface, and a reference points to a stream of the store. *)
Definition body_present (w : World) (b : ReadCloser) : Prop :=
  match b with
  | RCnil => False
  | NoBody => True
  | RCref l => is_Some (streams w !! l)
  end.

(** A computation, by its results, leaves the stream behind [b] alone. *)
Definition stream_kept (w w' : World) (b : ReadCloser) : Prop :=
  match b with
  | RCref k => streams w' !! k = streams w !! k
  | _ => True
  end.

(** The content types bound to a codec. *)
Definition bound_content_type (mediaType : string) : bool :=
  String.eqb mediaType ContentTypeJSON
  || String.eqb mediaType ContentTypeYAML
  || String.eqb mediaType ContentTypeText.

(** A target that makes [unmarshal] skip the dispatch on the content type:
    the raw byte sink. *)
Definition is_writer (v : Value) : bool :=
  match v with VWriter _ => true | _ => false end.

(** The dynamic type of the target is a pointer to string. *)
Definition is_string_ptr (v : Value) : bool :=
  match v with VPtr TString _ => true | _ => false end.

(** Reading, closing and allocating streams touch the streams only. *)
Definition only_streams (w w' : World) : Prop :=
  w' = set_streams w (streams w').

(** The request as [NewRequest] has assembled it when it reaches the
    callback. *)
Definition assembled_request {L} (c : Client L) (method : string) (rel : URL L)
  (contentType : string) (body : bytes) : Request :=
  mkRequest (http_method method)
            (http_NewRequest_URL L (URL_String L (ResolveReference L (BaseURL c) rel)))
            (assemble_header c [] contentType) body.

(** The client as [NewRequest] leaves it: a custom header has received
    what was added to the request. *)
Definition client_after_NewRequest {L} (c : Client L) (contentType : string) : Client L :=
  match header c with
  | Some _ => set_header c (Some (assemble_header c [] contentType))
  | None => c
  end.

(** ** A stand-in for the imported packages

    Enough of [net/url], [net/http], [fmt] and the decoders to run the
    definitions on examples. Addresses are kept as text, an address with a
    blank in it does not parse (as the test suite's invalid base address),
    and integers print in decimal. *)
Module Standin.

Fixpoint has_blank (s : string) : bool :=
  match s with
  | EmptyString => false
  | String a s' => Ascii.eqb a " "%char || has_blank s'
  end.

Definition url_Parse (s : string) : error + string :=
  if has_blank s then inl (errors_New "invalid character in host name")
  else inr s.

(** Resolution against a base address without a path. *)
Definition ResolveReference (base rel : string) : string :=
  match rel with
  | String "/"%char _ => String.append base rel
  | _ => String.append base (String.append "/" rel)
  end.

Definition http_NewRequest_err (method url : string) : option error :=
  if has_blank method then Some (errors_New "net/http: invalid method")
  else None.

Definition basicAuth (u p : string) : string :=
  String.append u (String.append ":" p).

Definition fmt_Sprint (v : Value) : string :=
  match v with
  | VNil => "<nil>"
  | VInt n => NilZero.string_of_int (Z.to_int n)
  | VString s => s
  | VStringer _ text => text
  | VPtr _ _ => "0xc000012345"
  | VWriter _ => "&{}"
  end.

Definition quote (s : string) : string :=
  let q := Ascii.ascii_of_nat 34 in
  String q (String.append s (String q EmptyString)).

Definition encode (v : Value) : error + bytes :=
  match v with
  | VInt n => inr (list_byte_of_string (NilZero.string_of_int (Z.to_int n)))
  | VString s => inr (list_byte_of_string (quote s))
  | VStringer _ text => inr (list_byte_of_string (quote text))
  | _ => inl (errors_New "unsupported type")
  end.

(** A decoder that stores the text it is given in the cell of a pointer
    target. *)
Definition decode (data : bytes) (v : Value) (cs : list Value)
  : list Value * option error :=
  match v with
  | VPtr _ l =>
      match data with
      | [] => (cs, Some (errors_New "EOF"))
      | _ => (<[l := VString (string_of_list_byte data)]> cs, None)
      end
  | _ => (cs, Some (errors_New "non-pointer target"))
  end.

Definition json_Decode (data : bytes) (rerr : option error) (v : Value)
  (cs : list Value) : list Value * option error :=
  match data, rerr with
  | [], Some e => (cs, Some e)
  | _, _ => decode data v cs
  end.

(** A network that refuses every connection. *)
Definition refuse : HTTPClient := fun _ _ =>
  ret (None, Some (errors_New "dial tcp: connection refused")).

Definition lib : Lib :=
  mkLib string url_Parse ResolveReference (fun u => u) http_NewRequest_err
        (fun u => u)
        basicAuth fmt_Sprint encode encode json_Decode decode refuse.

End Standin.

(** ** Test doubles and sample data *)

(** A transport that answers every request with the response [R], whose
    body is the given stream (or [http.NoBody] when there is none). *)
Definition answer (code : Z) (status : string) (body : option Stream) : HTTPClient :=
  fun _ _ w =>
    match body with
    | Some s =>
        Ret (Some (length (resps w)), None)
            (mkWorld (streams w ++ [s])
                     (resps w ++ [mkResponse code status (RCref (length (streams w)))])
                     (cells w) (writers w) (calls w))
    | None =>
        Ret (Some (length (resps w)), None)
            (set_resps w (resps w ++ [mkResponse code status NoBody]))
    end.

Definition empty_world : World := mkWorld [] [] [] [] [].

Definition background : Context := mkContext false.

Definition hello : bytes := list_byte_of_string "hello".

(** A body that delivers [hello] and ends. *)
Definition good_body : Stream := mkStream NetBody hello None None false.

(** A body whose connection breaks after [hello]. *)
Definition broken_body : Stream :=
  mkStream NetBody hello (Some (errors_New "unexpected EOF")) None false.

(** A body that delivers [hello] and whose [Close] fails. *)
Definition stuck_body : Stream :=
  mkStream NetBody hello None (Some (errors_New "close failed")) false.

(** [New(baseurl)] over the stand-in packages, the transport replaced by a
    double, as the tests do with their test server. *)
Definition sample_client (t : HTTPClient) (keep : bool) : Client Standin.lib :=
  mkClient Standin.lib t None "https://hostname.domain" ContentTypeJSON EmptyString EmptyString keep None
           (Some (marshal Standin.lib)) (Some (unmarshal Standin.lib))
           (Some requestCallback) (Some responseCallback).

Definition sample_request : Request :=
  mkRequest "GET" "https://hostname.domain/node" [] [].

(** A limiter whose bucket is empty and whose wait is given up. *)
Definition exhausted : Limiter := fun _ =>
  Some (errors_New "rate: Wait(n=1) would exceed context deadline").

(** A request callback that returns nil. *)
Definition dropping_callback : RequestCallbackFunc := fun _ => None.

(** The address that the tests use as an invalid one. *)
Definition baseurlInvalid : string :=
  "https://show you how deep the rabbit hole goes.domain".

(** ** The rest of the package and its callers *)

(** The verdict of [responseCallback] on a response. *)
Definition status_verdict (R : Response) : option error :=
  if (200 <=? StatusCode R) && (StatusCode R <=? 299) then None
  else Some (errors_New (Status R)).

(** The options that the package exports. *)
Inductive StdOpt {L : Lib} : Opt L -> Prop :=
| StdOpt_Password (p : string) : StdOpt (WithPassword L p)
| StdOpt_Username (u : string) : StdOpt (WithUsername L u)
| StdOpt_HTTPClient (t : HTTPClient) : StdOpt (WithHTTPClient L t)
| StdOpt_RateLimiter (l : option Limiter) : StdOpt (WithRateLimiter L l)
| StdOpt_ContentType (ct : string) : StdOpt (WithContentType L ct)
| StdOpt_Header (h : option Header) : StdOpt (WithHeader L h)
| StdOpt_KeepResponseBody : StdOpt (WithKeepResponseBody L).

(** A client that has the collaborators [New] gives it and a content type
    that is not empty. *)
Definition with_defaults {L : Lib} (c : Client L) : Prop :=
  Marshaler c = Some (marshal L)
  /\ Unmarshaler c = Some (unmarshal L)
  /\ RequestCallback c = Some requestCallback
  /\ ResponseCallback c = Some responseCallback
  /\ ContentType c <> EmptyString.

(** *** [QueryOptions] *)

(** [url.Values] *)
Abbreviation Values := (gmap string (list string)).

(** What [QueryOptions] takes from [reflect], [net/url] and
    [go-querystring]. *)
Record QueryLib (L : Lib) : Type := mkQueryLib {
  URL_Query : URL L -> Values;                 (* u.Query() *)
  URL_set_RawQuery : URL L -> string -> URL L; (* u.RawQuery = s *)
  Values_Encode : Values -> string;            (* v.Encode() *)
  query_Values : Value -> error + Values       (* query.Values(opt) *)
}.
Arguments URL_Query {L} q u.
Arguments URL_set_RawQuery {L} q u s.
Arguments Values_Encode {L} q v.
Arguments query_Values {L} q opt.

(** The argument [opt]: a nil pointer, of whatever pointer type, or any
    other value. *)
Inductive QueryOpt : Type :=
| QNilPointer
| QValue (v : Value).

(** The loop [for k, v := range newValues { origValues[k] = v }]. *)
Definition merge_Values (origValues newValues : Values) : Values :=
  map_fold (fun k v acc => <[k := v]> acc) origValues newValues.

(** [QueryOptions] adds query options [opt] to URL [u]. *)
Definition QueryOptions {L : Lib} (Q : QueryLib L) (u : string) (opt : QueryOpt)
  : string * option error :=
  match opt with
  | QNilPointer => (u, None)
  | QValue v =>
      match url_Parse L u with
      | inl err => (u, Some err)
      | inr origURL =>
          let origValues := URL_Query Q origURL in
          match query_Values Q v with
          | inl err => (u, Some err)
          | inr newValues =>
              let origValues := merge_Values origValues newValues in
              let origURL := URL_set_RawQuery Q origURL (Values_Encode Q origValues) in
              (URL_String L origURL, None)
          end
      end
  end.

(** *** The example service: [PostImpl.Delete] *)

(** [fmt.Sprintf("/posts/%d", id)] *)
Definition posts_path (id : Z) : string :=
  String.append "/posts/" (NilZero.string_of_int (Z.to_int id)).

(** [Delete] a post by ID. The client is the one the service points to; the
    call leaves it as [NewRequest] does. *)
Definition PostImpl_Delete {L : Lib} (c : Client L) (ctx : Context) (id : Z)
  : M (Client L * (option nat * option error)) :=
  fun w =>
    match NewRequest c "DELETE" (posts_path id) VNil with
    | Panicked msg => Panic msg w
    | Returned (c', (_, Some err)) => Ret (c', (None, Some err)) w
    | Returned (c', (req, None)) =>
        match Do c' ctx req VNil w with
        | Panic msg w' => Panic msg w'
        | Ret (_, Some err) w' => Ret (c', (None, Some err)) w'
        | Ret (resp, None) w' => Ret (c', (resp, None)) w'
        end
    end.

(** *** The callback of [ExampleResponseCallbackFunc] *)

(** The callback of the example saves the body, reads and prints it, puts
    the saved half back and checks the status as the default callback does.
    [stdout] is the writer that stands for [os.Stdout]; the errors of the
    split, of the read and of the print are dropped, as in the example. *)
Definition dump_ResponseCallback (stdout : nat) : ResponseCallbackFunc :=
  fun r =>
    b <- get_Body r ;;
    drained <- drainBody b ;;
    let '(save, body', _) := drained in
    _ <- put_Body r body' ;;
    b2 <- get_Body r ;;
    rd <- ReadAll b2 ;;
    _ <- write_to stdout (fst rd) ;;
    _ <- put_Body r save ;;
    responseCallback r.

(** *** More stand-ins and sample data *)

Module StandinQuery.

(** An address carries no query of its own; the query is appended after a
    question mark; the values are given for a structure only. *)
Definition encode_pair (kv : string * list string) : string :=
  String.append (fst kv) (String.append "=" (String.concat "," (snd kv))).

Definition Values_Encode (v : Values) : string :=
  String.concat "&" (map encode_pair (map_to_list v)).

Definition set_RawQuery (u q : string) : string :=
  String.append u (String.append "?" q).

Definition query_Values (opt : Value) : error + Values :=
  match opt with
  | VStringer _ text => inr {[ "search" := [text] ]}
  | VNil => inr ∅
  | _ => inl (errors_New "query: Values() expects struct input")
  end.

Definition qlib : QueryLib Standin.lib :=
  mkQueryLib Standin.lib (fun _ => ∅) set_RawQuery Values_Encode query_Values.

End StandinQuery.

(** A custom header, as [WithHeader] takes it. *)
Definition custom_header : Header :=
  [("X-Trace", ["on"]); ("Authorization", ["Bearer token"])].

(** A response callback that answers with a response of its own, with a
    body of its own, in place of the one it was given. *)
Definition substitute_response : ResponseCallbackFunc := fun _ w =>
  Ret (Some (length (resps w)), None)
      (mkWorld (streams w ++ [good_body])
               (resps w ++ [mkResponse 200 "200 OK" (RCref (length (streams w)))])
               (cells w) (writers w) (calls w)).

(** * Properties *)

(** ** Construction *)

(** The sample client is the one that [New] builds, its transport replaced. *)
Lemma New_sample_client (t : HTTPClient) :
  New Standin.lib "https://hostname.domain" [WithHTTPClient Standin.lib t]
  = inr (sample_client t false)
  /\ New Standin.lib "https://hostname.domain"
         [WithHTTPClient Standin.lib t; WithKeepResponseBody Standin.lib]
     = inr (sample_client t true).
Proof. split; reflexivity. Qed.

(** Each option checks its own argument, and [New] the address. *)
Lemma New_rejects :
  (exists e, New Standin.lib baseurlInvalid [] = inl e)
  /\ New Standin.lib "https://hostname.domain" [WithContentType Standin.lib EmptyString]
     = inl (errors_New "content type cannot be empty")
  /\ New Standin.lib "https://hostname.domain" [WithUsername Standin.lib EmptyString]
     = inl (errors_New "username cannot be empty")
  /\ New Standin.lib "https://hostname.domain" [WithPassword Standin.lib EmptyString]
     = inl (errors_New "password cannot be empty").
Proof. repeat split. eexists; reflexivity. Qed.

(** ** Streams of the store *)

Lemma ReadAll_ref (w : World) (l : nat) (s : Stream) :
  streams w !! l = Some s ->
  ReadAll (RCref l) w =
  Ret (snd (stream_read_all s))
      (set_streams w (<[l := fst (stream_read_all s)]> (streams w))).
Proof.
  intros Hl. unfold ReadAll. rewrite Hl.
  destruct (stream_read_all s) as [s' out]. reflexivity.
Qed.

Lemma Close_ref (w : World) (l : nat) (s : Stream) :
  streams w !! l = Some s ->
  Close (RCref l) w =
  Ret (snd (stream_close s))
      (set_streams w (<[l := fst (stream_close s)]> (streams w))).
Proof.
  intros Hl. unfold Close. rewrite Hl.
  destruct (stream_close s) as [s' out]. reflexivity.
Qed.

Lemma stream_read_all_closed (s s' : Stream) (d : bytes) (rerr : option error) :
  stream_read_all s = (s', (d, rerr)) -> sclosed s' = sclosed s.
Proof.
  unfold stream_read_all.
  destruct (skind s), (sclosed s) eqn:Hc; intros [= <- _ _]; simpl; congruence.
Qed.

Lemma stream_read_all_drained (s s' : Stream) (d : bytes) :
  stream_read_all s = (s', (d, None)) ->
  s' = mkStream (skind s) [] None (scerr s) (sclosed s) /\ d = sdata s /\ srerr s = None.
Proof.
  unfold stream_read_all.
  destruct (skind s), (sclosed s) eqn:Hc; intros [= <- <- Hr];
    rewrite <- ?Hr; auto.
Qed.

(** A stream that was read to its end without error and whose close then
    failed is a body that is still open. *)
Lemma close_failure_open (s s' s'' : Stream) (d : bytes) (e : error) :
  stream_read_all s = (s', (d, None)) ->
  stream_close s' = (s'', Some e) ->
  s'' = s' /\ sdata s'' = [] /\ sclosed s'' = false.
Proof.
  intros Hr Hc.
  destruct (stream_read_all_drained _ _ _ Hr) as (-> & _ & _).
  revert Hr Hc. unfold stream_read_all, stream_close. simpl.
  destruct (skind s) eqn:Hk, (sclosed s) eqn:Hcl; try discriminate;
    destruct (scerr s); intros _ [= <- ?]; auto.
Qed.

(** ** [drainBody] *)

(** The sentinel goes through untouched, and the store with it. *)
Lemma drainBody_NoBody (w : World) :
  drainBody NoBody w = Ret (NoBody, NoBody, None) w.
Proof. reflexivity. Qed.

Lemma drainBody_read_failure (w : World) (l : nat) (s s' : Stream) (d : bytes) (e : error) :
  streams w !! l = Some s ->
  stream_read_all s = (s', (d, Some e)) ->
  drainBody (RCref l) w =
  Ret (RCnil, RCref l, Some e) (set_streams w (<[l := s']> (streams w))).
Proof.
  intros Hl Hr. unfold drainBody, bind. cbn [is_NoBody].
  rewrite (ReadAll_ref _ _ _ Hl), Hr. reflexivity.
Qed.

Lemma drainBody_close_failure (w : World) (l : nat) (s s' s'' : Stream) (d : bytes) (e : error) :
  streams w !! l = Some s ->
  stream_read_all s = (s', (d, None)) ->
  stream_close s' = (s'', Some e) ->
  drainBody (RCref l) w =
  Ret (RCnil, RCref l, Some e) (set_streams w (<[l := s'']> (streams w))).
Proof.
  intros Hl Hr Hc. unfold drainBody, bind. cbn [is_NoBody].
  rewrite (ReadAll_ref _ _ _ Hl), Hr. cbn [fst snd].
  assert (Hl' : streams (set_streams w (<[l := s']> (streams w))) !! l = Some s').
  { simpl. apply list_lookup_insert_eq. eapply lookup_lt_Some; eauto. }
  rewrite (Close_ref _ _ _ Hl'), Hc. cbn [fst snd]. simpl.
  rewrite list_insert_insert_eq. reflexivity.
Qed.

Lemma drainBody_success (w : World) (l : nat) (s s' s'' : Stream) (d : bytes) :
  streams w !! l = Some s ->
  stream_read_all s = (s', (d, None)) ->
  stream_close s' = (s'', None) ->
  drainBody (RCref l) w =
  Ret (RCref (length (streams w)), RCref (S (length (streams w))), None)
      (set_streams w (<[l := s'']> (streams w)
                      ++ [mkStream NopCloser d None None false;
                          mkStream NopCloser d None None false])).
Proof.
  intros Hl Hr Hc. unfold drainBody, bind. cbn [is_NoBody].
  rewrite (ReadAll_ref _ _ _ Hl), Hr. cbn [fst snd].
  assert (Hl' : streams (set_streams w (<[l := s']> (streams w))) !! l = Some s').
  { simpl. apply list_lookup_insert_eq. eapply lookup_lt_Some; eauto. }
  rewrite (Close_ref _ _ _ Hl'), Hc. cbn [fst snd]. simpl.
  unfold new_NopCloser, ret. simpl.
  rewrite list_insert_insert_eq, length_app, !length_insert. simpl.
  rewrite <- app_assoc. simpl.
  replace (length (streams w) + 1)%nat with (S (length (streams w))) by lia.
  reflexivity.
Qed.

(** Reading one of the two copies leaves the other as it is. *)
Lemma ReadAll_copy (w : World) (k : nat) (d : bytes) :
  streams w !! k = Some (mkStream NopCloser d None None false) ->
  ReadAll (RCref k) w =
  Ret (d, None)
      (set_streams w (<[k := mkStream NopCloser [] None None false]> (streams w))).
Proof. intros Hk. rewrite (ReadAll_ref _ _ _ Hk). reflexivity. Qed.

(** C8. For a stream of the store other than the sentinel: when reading it
    fails, [drainBody] gives up with that error and returns, as its second
    result, the stream it was given, on which it has not called [Close]
    (the first result is nil, nothing is allocated); when the read succeeds
    and [Close] fails, it gives up with the close error and returns the
    stream it was given, read to its end and still open. *)
Theorem drainBody_aborts_with_original
  (w : World) (l : nat) (s s' : Stream) (d : bytes) (rerr : option error) :
  streams w !! l = Some s ->
  stream_read_all s = (s', (d, rerr)) ->
  (forall e, rerr = Some e ->
     exists w',
       drainBody (RCref l) w = Ret (RCnil, RCref l, Some e) w'
       /\ streams w' !! l = Some s'
       /\ sclosed s' = sclosed s
       /\ length (streams w') = length (streams w))
  /\
  (forall e s'', rerr = None -> stream_close s' = (s'', Some e) ->
     exists w',
       drainBody (RCref l) w = Ret (RCnil, RCref l, Some e) w'
       /\ streams w' !! l = Some s''
       /\ sdata s'' = [] /\ sclosed s'' = false
       /\ length (streams w') = length (streams w)).
Proof.
  intros Hl Hr. pose proof (lookup_lt_Some _ _ _ Hl) as Hlt. split.
  - intros e ->. eexists. split; [eapply drainBody_read_failure; eauto|].
    simpl. rewrite length_insert. repeat split.
    + apply list_lookup_insert_eq; assumption.
    + eapply stream_read_all_closed; eauto.
  - intros e s'' -> Hc. eexists. split; [eapply drainBody_close_failure; eauto|].
    destruct (close_failure_open _ _ _ _ _ Hr Hc) as (_ & Hd & Hcl).
    simpl. rewrite length_insert. repeat split; auto.
    apply list_lookup_insert_eq; assumption.
Qed.

(** The broken body: the read fails after [hello]. The stuck body: the
    read succeeds and the close fails. *)
Lemma drainBody_aborts_with_original_witness :
  (exists w',
     drainBody (RCref 0) (set_streams empty_world [broken_body])
     = Ret (RCnil, RCref 0, Some (errors_New "unexpected EOF")) w'
     /\ streams w' !! 0%nat = Some (mkStream NetBody [] (Some (errors_New "unexpected EOF")) None false)
     /\ false = false /\ length (streams w') = 1%nat)
  /\
  (exists w',
     drainBody (RCref 0) (set_streams empty_world [stuck_body])
     = Ret (RCnil, RCref 0, Some (errors_New "close failed")) w'
     /\ streams w' !! 0%nat = Some (mkStream NetBody [] None (Some (errors_New "close failed")) false)
     /\ @nil Byte.byte = [] /\ false = false
     /\ length (streams w') = 1%nat).
Proof.
  split.
  - apply (proj1 (drainBody_aborts_with_original
                    (set_streams empty_world [broken_body]) 0 broken_body _ _ _
                    eq_refl eq_refl) _ eq_refl).
  - apply (proj2 (drainBody_aborts_with_original
                    (set_streams empty_world [stuck_body]) 0 stuck_body _ _ _
                    eq_refl eq_refl) _ _ eq_refl eq_refl).
Defined.

(** C7, as the code has it. On the sentinel, [drainBody] returns the
    sentinel itself twice, with no error, and leaves the store as it was:
    nothing is allocated. On a stream of the store whose read to the end and
    whose close both succeed, it returns two new, distinct streams with no
    error, and each of them, read to its end, yields the bytes [d] that the
    original held, whichever is read first. *)
Theorem drainBody_two_copies :
  (forall w, drainBody NoBody w = Ret (NoBody, NoBody, None) w)
  /\
  (forall (w : World) (l : nat) (s s' s'' : Stream) (d : bytes),
     streams w !! l = Some s ->
     stream_read_all s = (s', (d, None)) ->
     stream_close s' = (s'', None) ->
     exists k1 k2 w',
       drainBody (RCref l) w = Ret (RCref k1, RCref k2, None) w'
       /\ d = sdata s
       /\ k1 <> k2
       /\ streams w !! k1 = None /\ streams w !! k2 = None
       /\ (exists wa wb, ReadAll (RCref k1) w' = Ret (d, None) wa
                         /\ ReadAll (RCref k2) wa = Ret (d, None) wb)
       /\ (exists wa wb, ReadAll (RCref k2) w' = Ret (d, None) wa
                         /\ ReadAll (RCref k1) wa = Ret (d, None) wb)).
Proof.
  split; [exact drainBody_NoBody|].
  intros w l s s' s'' d Hl Hr Hc.
  pose proof (lookup_lt_Some _ _ _ Hl) as Hlt.
  set (n := length (streams w)).
  set (c := mkStream NopCloser d None None false).
  exists n, (S n). eexists. split; [eapply drainBody_success; eauto|].
  assert (Hn : length (<[l := s'']> (streams w)) = n) by apply length_insert.
  assert (H1 : forall x, (<[l := s'']> (streams w) ++ [c; x]) !! n = Some c).
  { intros x. apply list_lookup_middle. auto. }
  assert (H2 : forall x, (<[l := s'']> (streams w) ++ [x; c]) !! S n = Some c).
  { intros x. rewrite lookup_app_r by lia. rewrite Hn.
    replace (S n - n)%nat with 1%nat by lia. reflexivity. }
  split; [apply (stream_read_all_drained _ _ _ Hr)|].
  split; [lia|].
  split; [apply lookup_ge_None; unfold n; lia|].
  split; [apply lookup_ge_None; unfold n; lia|].
  split.
  - eexists. eexists. split.
    + apply ReadAll_copy. simpl. apply H1.
    + apply ReadAll_copy. simpl.
      rewrite list_lookup_insert_ne by lia. apply H2.
  - eexists. eexists. split.
    + apply ReadAll_copy. simpl. apply H2.
    + apply ReadAll_copy. simpl.
      rewrite list_lookup_insert_ne by lia. apply H1.
Qed.

(** The good body, split: both copies deliver [hello]. *)
Lemma drainBody_two_copies_witness :
  exists k1 k2 w',
    drainBody (RCref 0) (set_streams empty_world [good_body])
    = Ret (RCref k1, RCref k2, None) w'
    /\ hello = sdata good_body
    /\ k1 <> k2
    /\ streams (set_streams empty_world [good_body]) !! k1 = None
    /\ streams (set_streams empty_world [good_body]) !! k2 = None
    /\ (exists wa wb, ReadAll (RCref k1) w' = Ret (hello, None) wa
                      /\ ReadAll (RCref k2) wa = Ret (hello, None) wb)
    /\ (exists wa wb, ReadAll (RCref k2) w' = Ret (hello, None) wa
                      /\ ReadAll (RCref k1) wa = Ret (hello, None) wb).
Proof.
  apply (proj2 drainBody_two_copies
               (set_streams empty_world [good_body]) 0%nat good_body _ _ hello
               eq_refl eq_refl eq_refl).
Defined.

(** C7 as stated fails on a stream that is not the sentinel: when the
    connection breaks while the body is read, [drainBody] does not succeed;
    it returns the error, a nil first stream, and the original. *)
Lemma drainBody_broken_body_fails :
  drainBody (RCref 0) (set_streams empty_world [broken_body])
  = Ret (RCnil, RCref 0, Some (errors_New "unexpected EOF"))
        (set_streams empty_world
           [mkStream NetBody [] (Some (errors_New "unexpected EOF")) None false]).
Proof. reflexivity. Qed.

(** ** The codec *)

Lemma unbound_not_JSON (mediaType : string) :
  bound_content_type mediaType = false ->
  String.eqb mediaType ContentTypeJSON = false
  /\ String.eqb mediaType ContentTypeYAML = false
  /\ String.eqb mediaType ContentTypeText = false.
Proof.
  unfold bound_content_type. intros H.
  apply orb_false_elim in H as [H Ht]. apply orb_false_elim in H as [Hj Hy].
  auto.
Qed.

Lemma ReadAll_cells (r : ReadCloser) (w w' : World) (out : bytes * option error) :
  ReadAll r w = Ret out w' -> cells w' = cells w.
Proof.
  unfold ReadAll. destruct r as [| |l]; try discriminate.
  - intros [= _ <-]. reflexivity.
  - destruct (streams w !! l) as [s|]; try discriminate.
    destruct (stream_read_all s) as [s' o]. intros [= _ <-]. reflexivity.
Qed.

Lemma ReadAll_writers (r : ReadCloser) (w w' : World) (out : bytes * option error) :
  ReadAll r w = Ret out w' -> writers w' = writers w.
Proof.
  unfold ReadAll. destruct r as [| |l]; try discriminate.
  - intros [= _ <-]. reflexivity.
  - destruct (streams w !! l) as [s|]; try discriminate.
    destruct (stream_read_all s) as [s' o]. intros [= _ <-]. reflexivity.
Qed.

(** C9, as the code has it. For a content type that has no codec:
    [marshal] of a payload that is not nil fails with [ErrUnknownContentType]
    wrapped with the content type, and writes nothing; [unmarshal] into a
    target that is neither nil nor a writer fails with the same error and
    reads nothing. The error prints as the content type followed by the
    sentinel's text, its cause is the sentinel, and the text codec's error
    for a wrong target has another cause.

    Where the content type is not looked at: with a nil payload [marshal]
    succeeds and writes nothing; with a nil target [unmarshal] succeeds and
    reads nothing; with a writer as target [unmarshal] is the copy of the
    body into the writer, which returns no error when the body is read to
    its end and the writer accepts the bytes, and the read error when the
    body fails and the writer accepts what was read. *)
Theorem unknown_content_type_error (L : Lib) (mediaType : string) :
  bound_content_type mediaType = false ->
  (forall (w : Writer) (v : Value),
     is_nil v = false ->
     marshal L w v mediaType
     = (w, (mediaType, Some (errors_Wrap ErrUnknownContentType mediaType))))
  /\ (forall (r : ReadCloser) (v : Value) (w : World),
        is_nil v = false -> is_writer v = false ->
        unmarshal L r v mediaType w
        = Ret (Some (errors_Wrap ErrUnknownContentType mediaType)) w)
  /\ Cause (errors_Wrap ErrUnknownContentType mediaType) = ErrUnknownContentType
  /\ Error (errors_Wrap ErrUnknownContentType mediaType)
     = String.append mediaType ": unknown media type"
  /\ Cause (errors_New "target type is not string") <> ErrUnknownContentType
  /\ (forall w : Writer, marshal L w VNil mediaType = (w, (mediaType, None)))
  /\ (forall (r : ReadCloser) (w : World),
        unmarshal L r VNil mediaType w = Ret None w)
  /\ (forall (r : ReadCloser) (l : nat) (w : World),
        unmarshal L r (VWriter l) mediaType w = io_Copy l r w)
  /\ (forall (r : ReadCloser) (l : nat) (w w' : World) (d : bytes)
             (rerr : option error) (wr : Writer),
        ReadAll r w = Ret (d, rerr) w' ->
        writers w !! l = Some wr ->
        wfail wr = None ->
        exists wf, unmarshal L r (VWriter l) mediaType w = Ret rerr wf).
Proof.
  intros Hub. destruct (unbound_not_JSON _ Hub) as (Hj & Hy & Ht).
  repeat match goal with |- _ /\ _ => split end.
  - intros w v Hv. unfold marshal. rewrite Hv, Hj, Hy, Ht. reflexivity.
  - intros r v w Hv Hw. unfold unmarshal.
    destruct v; try discriminate; rewrite Hj, Hy, Ht; reflexivity.
  - reflexivity.
  - reflexivity.
  - discriminate.
  - reflexivity.
  - reflexivity.
  - reflexivity.
  - intros r l w w' d rerr wr Hr Hw Hf.
    assert (Hw' : writers w' !! l = Some wr).
    { rewrite (ReadAll_writers _ _ _ _ Hr). exact Hw. }
    unfold unmarshal, io_Copy, bind. rewrite Hr.
    destruct d as [|x d]; [eexists; reflexivity|].
    unfold write_to. rewrite Hw'. unfold Write. rewrite Hf.
    eexists. reflexivity.
Qed.

Lemma unknown_content_type_error_witness :
  marshal Standin.lib new_Buffer (VInt 42) "unknown/unknown"
  = (new_Buffer, ("unknown/unknown",
                  Some (errors_Wrap ErrUnknownContentType "unknown/unknown")))
  /\ unmarshal Standin.lib NoBody (VPtr TInt 0) "unknown/unknown" empty_world
     = Ret (Some (errors_Wrap ErrUnknownContentType "unknown/unknown")) empty_world
  /\ (exists wf,
        unmarshal Standin.lib (RCref 0) (VWriter 0) "unknown/unknown"
                  (mkWorld [broken_body] [] [] [new_Buffer] [])
        = Ret (Some (errors_New "unexpected EOF")) wf).
Proof.
  pose proof (unknown_content_type_error Standin.lib "unknown/unknown" eq_refl)
    as (Hm & Hu & _ & _ & _ & _ & _ & _ & Hcopy).
  split; [|split].
  - apply Hm. reflexivity.
  - apply Hu; reflexivity.
  - apply (Hcopy (RCref 0) 0%nat (mkWorld [broken_body] [] [] [new_Buffer] [])
                 (mkWorld [mkStream NetBody [] (Some (errors_New "unexpected EOF"))
                                    None false] [] [] [new_Buffer] [])
                 hello (Some (errors_New "unexpected EOF")) new_Buffer
                 eq_refl eq_refl eq_refl).
Defined.

(** C9 as stated fails: with no payload [marshal] succeeds whatever the
    content type, and so does [unmarshal] with no target or with a writer
    as target, which receives the bytes of the body. *)
Lemma unknown_content_type_accepted :
  bound_content_type "unknown/unknown" = false
  /\ marshal Standin.lib new_Buffer VNil "unknown/unknown"
     = (new_Buffer, ("unknown/unknown", None))
  /\ unmarshal Standin.lib (RCref 0) VNil "unknown/unknown"
       (set_streams empty_world [good_body])
     = Ret None (set_streams empty_world [good_body])
  /\ unmarshal Standin.lib (RCref 0) (VWriter 0) "unknown/unknown"
       (mkWorld [good_body] [] [] [new_Buffer] [])
     = Ret None (mkWorld [mkStream NetBody [] None None false] [] []
                         [mkWriter hello None] []).
Proof. repeat split. Qed.

(** C6, as the code has it. With the text content type, [marshal] writes
    the rendering that [fmt] gives of the payload, whatever its type, and its
    only error is the writer's: on a writer that accepts the bytes it
    succeeds. [unmarshal] into a target that is not nil, not a writer and
    not a pointer to string fails with the error "target type is not
    string" and reads nothing; into a pointer to string it stores the text
    of a body that was read without error. *)
Theorem text_codec_types (L : Lib) :
  (forall (w : Writer) (v : Value),
     is_nil v = false ->
     marshal L w v ContentTypeText
     = (fst (Write w (list_byte_of_string (fmt_Sprint L v))),
        (ContentTypeText, snd (Write w (list_byte_of_string (fmt_Sprint L v))))))
  /\ (forall (w : Writer) (v : Value),
        is_nil v = false -> wfail w = None ->
        marshal L w v ContentTypeText
        = (mkWriter (wbuf w ++ list_byte_of_string (fmt_Sprint L v)) None,
           (ContentTypeText, None)))
  /\ (forall (r : ReadCloser) (v : Value) (w : World),
        is_nil v = false -> is_writer v = false -> is_string_ptr v = false ->
        unmarshal L r v ContentTypeText w
        = Ret (Some (errors_New "target type is not string")) w)
  /\ (forall (r : ReadCloser) (l : nat) (w w' : World) (d : bytes),
        is_Some (cells w !! l) ->
        ReadAll r w = Ret (d, None) w' ->
        unmarshal L r (VPtr TString l) ContentTypeText w
        = Ret None (set_cells w' (<[l := VString (string_of_list_byte d)]> (cells w')))).
Proof.
  assert (Hm : forall w v, is_nil v = false ->
     marshal L w v ContentTypeText
     = (fst (Write w (list_byte_of_string (fmt_Sprint L v))),
        (ContentTypeText, snd (Write w (list_byte_of_string (fmt_Sprint L v)))))).
  { intros w v Hv. unfold marshal. rewrite Hv. cbn [String.eqb]. simpl.
    unfold fmt_Fprint. destruct (Write w _). reflexivity. }
  split; [exact Hm|]. split; [|split].
  - intros w v Hv Hw. rewrite (Hm w v Hv). unfold Write. rewrite Hw. reflexivity.
  - intros r v w Hv Hw Hs. unfold unmarshal.
    destruct v as [| | | |t l|]; try discriminate; try reflexivity.
    destruct t; try discriminate; reflexivity.
  - intros r l w w' d [x Hx] Hr. unfold unmarshal. simpl.
    unfold unmarshal_text, bind. rewrite Hr. unfold store_cell.
    rewrite (ReadAll_cells _ _ _ _ Hr), Hx. reflexivity.
Qed.

Lemma text_codec_types_witness :
  marshal Standin.lib new_Buffer (VStringer "message" "it's only rock'n'roll")
          ContentTypeText
  = (mkWriter (list_byte_of_string "it's only rock'n'roll") None,
     (ContentTypeText, None))
  /\ unmarshal Standin.lib (RCref 0) (VPtr TInt 0) ContentTypeText
       (mkWorld [good_body] [] [VInt 42] [] [])
     = Ret (Some (errors_New "target type is not string"))
           (mkWorld [good_body] [] [VInt 42] [] [])
  /\ unmarshal Standin.lib (RCref 0) (VPtr TString 0) ContentTypeText
       (mkWorld [good_body] [] [VString EmptyString] [] [])
     = Ret None (mkWorld [mkStream NetBody [] None None false] []
                         [VString "hello"] [] []).
Proof.
  pose proof (text_codec_types Standin.lib) as (_ & Hm & Hu & Hs).
  split; [|split].
  - apply (Hm new_Buffer (VStringer "message" "it's only rock'n'roll"));
      reflexivity.
  - apply Hu; reflexivity.
  - apply (Hs (RCref 0) 0%nat (mkWorld [good_body] [] [VString EmptyString] [] [])
              (mkWorld [mkStream NetBody [] None None false] [] [VString EmptyString] [] [])
              hello).
    + eexists; reflexivity.
    + reflexivity.
Defined.

(** C6 as stated fails for [marshal]: an integer has no String method, and
    the text codec still encodes it, as its decimal digits, with no
    error. *)
Lemma marshal_text_accepts_int :
  marshal Standin.lib new_Buffer (VInt 42) ContentTypeText
  = (mkWriter (list_byte_of_string "42") None, (ContentTypeText, None)).
Proof. reflexivity. Qed.

(** ** The store under the stream operations *)

Lemma only_streams_refl (w : World) : only_streams w w.
Proof. destruct w; reflexivity. Qed.

Lemma only_streams_set (w : World) (ss : list Stream) :
  only_streams w (set_streams w ss).
Proof. reflexivity. Qed.

Lemma only_streams_resps (w w' : World) : only_streams w w' -> resps w' = resps w.
Proof. intros ->. reflexivity. Qed.

Lemma ReadAll_only_streams (b : ReadCloser) (w w' : World) (out : bytes * option error) :
  ReadAll b w = Ret out w' -> only_streams w w'.
Proof.
  unfold ReadAll. destruct b as [| |l]; try discriminate.
  - intros [= _ <-]. apply only_streams_refl.
  - destruct (streams w !! l) as [s|]; try discriminate.
    destruct (stream_read_all s). intros [= _ <-]. apply only_streams_set.
Qed.

Lemma Close_only_streams (b : ReadCloser) (w w' : World) (out : option error) :
  Close b w = Ret out w' -> only_streams w w'.
Proof.
  unfold Close. destruct b as [| |l]; try discriminate.
  - intros [= _ <-]. apply only_streams_refl.
  - destruct (streams w !! l) as [s|]; try discriminate.
    destruct (stream_close s). intros [= _ <-]. apply only_streams_set.
Qed.

Lemma Close_present (w : World) (b : ReadCloser) :
  body_present w b -> exists cerr w', Close b w = Ret cerr w' /\ only_streams w w'.
Proof.
  destruct b as [| |l]; cbn [body_present]; [tauto| |].
  - intros _. exists None, w. split; [reflexivity|apply only_streams_refl].
  - intros [s Hs]. rewrite (Close_ref _ _ _ Hs). eexists. eexists.
    split; [reflexivity|apply only_streams_set].
Qed.

(** On a body that is there, [drainBody] returns, with or without an
    error, and touches the streams only. *)
Lemma drainBody_present (w : World) (b : ReadCloser) :
  body_present w b ->
  exists save body' err w',
    drainBody b w = Ret (save, body', err) w' /\ only_streams w w'.
Proof.
  destruct b as [| |l]; cbn [body_present]; [tauto| |].
  - intros _. exists NoBody, NoBody, None, w.
    split; [reflexivity|apply only_streams_refl].
  - intros [s Hs].
    destruct (stream_read_all s) as [s' [d [e|]]] eqn:Hr.
    + do 4 eexists. split; [eapply drainBody_read_failure; eauto|].
      apply only_streams_set.
    + destruct (stream_close s') as [s'' [e|]] eqn:Hc.
      * do 4 eexists. split; [eapply drainBody_close_failure; eauto|].
        apply only_streams_set.
      * do 4 eexists. split; [eapply drainBody_success; eauto|].
        apply only_streams_set.
Qed.

(** ** [Do]: the steps *)

Lemma Do_admitted {L} (c : Client L) ctx req v (w w1 : World) (resp : option nat) :
  limiter_Wait c ctx = None ->
  client_Do c ctx req w = Ret (resp, None) w1 ->
  Do c ctx req v w =
  match manage_body c resp w1 with
  | Ret deferFunc w2 => run_deferred deferFunc (Do_protected c v resp w2)
  | Panic msg w2 => Panic msg w2
  end.
Proof.
  intros Hlim Hsend. unfold Do, bind. rewrite Hlim, Hsend. reflexivity.
Qed.

Lemma manage_body_close {L} (c : Client L) (resp : option nat) (w : World) :
  keepResponseBody c = false ->
  manage_body c resp w = Ret defer_close w.
Proof. intros Hk. unfold manage_body. rewrite Hk. reflexivity. Qed.

Lemma manage_body_keep {L} (c : Client L) (l : nat) (R : Response)
  (w w2 : World) (save body' : ReadCloser) (err : option error) :
  keepResponseBody c = true ->
  resps w !! l = Some R ->
  drainBody (Body R) w = Ret (save, body', err) w2 ->
  only_streams w w2 ->
  manage_body c (Some l) w =
  Ret (defer_restore save) (set_resps w2 (<[l := set_Body R body']> (resps w2))).
Proof.
  intros Hk HR Hd Hos. unfold manage_body, bind, get_Body, put_Body.
  rewrite Hk, HR, Hd. rewrite (only_streams_resps _ _ Hos), HR. reflexivity.
Qed.

Lemma defer_close_present (w : World) (l : nat) (R : Response) :
  resps w !! l = Some R -> body_present w (Body R) ->
  exists w', defer_close (Some l) w = Ret tt w' /\ only_streams w w'.
Proof.
  intros HR Hb. unfold defer_close, bind, get_Body. rewrite HR.
  destruct (Close_present _ _ Hb) as (cerr & w' & -> & Hos).
  exists w'. split; [reflexivity|assumption].
Qed.

(** ** The rate limiter *)

(** C3. When the client has a rate limiter and its [Wait] returns an error,
    whatever the error, [Do] returns a nil response with
    [ErrTooManyRequest], and the store is the one it started from: no
    request has been entered in [calls]. The transport is not consulted:
    the result is the same with any other transport in its place. *)
Theorem Do_throttled {L} (c : Client L) (ctx : Context) (req : option Request)
  (v : Value) (lim : Limiter) (e : error) (w : World) :
  limiter c = Some lim ->
  lim ctx = Some e ->
  Do c ctx req v w = Ret (None, Some ErrTooManyRequest) w
  /\ (forall t : HTTPClient,
        Do (set_client c t) ctx req v w = Ret (None, Some ErrTooManyRequest) w).
Proof.
  intros Hl He. split.
  - unfold Do, limiter_Wait. rewrite Hl, He. reflexivity.
  - intros t. unfold Do, limiter_Wait. simpl. rewrite Hl, He. reflexivity.
Qed.

Lemma Do_throttled_witness :
  let c := set_limiter (sample_client (answer 200 "200 OK" (Some good_body)) false)
                       (Some exhausted) in
  Do c background (Some sample_request) VNil empty_world
  = Ret (None, Some ErrTooManyRequest) empty_world
  /\ (forall t : HTTPClient,
        Do (set_client c t) background (Some sample_request) VNil empty_world
        = Ret (None, Some ErrTooManyRequest) empty_world).
Proof.
  intros c.
  apply (Do_throttled c background (Some sample_request) VNil exhausted
           (errors_New "rate: Wait(n=1) would exceed context deadline")
           empty_world eq_refl eq_refl).
Defined.

(** ** The default response callback *)

Lemma status_2xx_test (code : Z) :
  status_2xx code <-> (200 <=? code) && (code <=? 299) = true.
Proof. unfold status_2xx. rewrite andb_true_iff, !Z.leb_le. tauto. Qed.

Lemma responseCallback_2xx (w : World) (l : nat) (R : Response) :
  resps w !! l = Some R -> status_2xx (StatusCode R) ->
  responseCallback (Some l) w = Ret (Some l, None) w.
Proof.
  intros HR Hs. unfold responseCallback. rewrite HR.
  apply status_2xx_test in Hs. rewrite Hs. reflexivity.
Qed.

Lemma responseCallback_other (w : World) (l : nat) (R : Response) :
  resps w !! l = Some R -> ~ status_2xx (StatusCode R) ->
  responseCallback (Some l) w = Ret (Some l, Some (errors_New (Status R))) w.
Proof.
  intros HR Hs. unfold responseCallback. rewrite HR.
  destruct ((200 <=? StatusCode R) && (StatusCode R <=? 299)) eqn:Ht.
  - exfalso. apply Hs, status_2xx_test, Ht.
  - reflexivity.
Qed.

(** C5. [responseCallback] returns the response it was given, with no error
    and the store untouched, when the status code is between 200 and 299;
    for any other code it returns the same response with an error whose text
    is the status line. When the client uses it and the transport has
    delivered a response with another code, [Do] returns that error with
    the response, which is not nil and still in the store with its status. *)
Theorem responseCallback_status (L : Lib) :
  (forall (w : World) (l : nat) (R : Response),
     resps w !! l = Some R ->
     (status_2xx (StatusCode R) ->
        responseCallback (Some l) w = Ret (Some l, None) w)
     /\ (~ status_2xx (StatusCode R) ->
           responseCallback (Some l) w = Ret (Some l, Some (errors_New (Status R))) w
           /\ Error (errors_New (Status R)) = Status R))
  /\
  (forall (c : Client L) (ctx : Context) (req : option Request) (v : Value)
          (w w1 : World) (l : nat) (R : Response),
     ResponseCallback c = Some responseCallback ->
     limiter_Wait c ctx = None ->
     client_Do c ctx req w = Ret (Some l, None) w1 ->
     resps w1 !! l = Some R ->
     body_present w1 (Body R) ->
     ~ status_2xx (StatusCode R) ->
     exists wf R',
       Do c ctx req v w = Ret (Some l, Some (errors_New (Status R))) wf
       /\ Error (errors_New (Status R)) = Status R
       /\ resps wf !! l = Some R'
       /\ StatusCode R' = StatusCode R /\ Status R' = Status R).
Proof.
  split.
  - intros w l R HR. split.
    + apply responseCallback_2xx; assumption.
    + intros Hs. split; [apply responseCallback_other; assumption|reflexivity].
  - intros c ctx req v w w1 l R Hcb Hlim Hsend HR Hb Hs.
    pose proof (lookup_lt_Some _ _ _ HR) as Hlt.
    rewrite (Do_admitted c ctx req v w w1 (Some l) Hlim Hsend).
    destruct (keepResponseBody c) eqn:Hk.
    + destruct (drainBody_present _ _ Hb) as (save & body' & err & w2 & Hd & Hos).
      rewrite (manage_body_keep c l R w1 w2 save body' err Hk HR Hd Hos).
      set (w3 := set_resps w2 (<[l := set_Body R body']> (resps w2))).
      assert (HR3 : resps w3 !! l = Some (set_Body R body')).
      { simpl. apply list_lookup_insert_eq.
        rewrite (only_streams_resps _ _ Hos). assumption. }
      unfold Do_protected. rewrite Hcb.
      rewrite (responseCallback_other w3 l _ HR3) by exact Hs.
      unfold run_deferred, defer_restore, put_Body. rewrite HR3. simpl.
      eexists. exists (set_Body (set_Body R body') save).
      split; [reflexivity|]. split; [reflexivity|].
      split; [|split; reflexivity].
      apply list_lookup_insert_eq. rewrite !length_insert.
      rewrite (only_streams_resps _ _ Hos). assumption.
    + rewrite (manage_body_close c (Some l) w1 Hk).
      unfold Do_protected. rewrite Hcb.
      rewrite (responseCallback_other w1 l _ HR) by exact Hs.
      destruct (defer_close_present _ _ _ HR Hb) as (w' & Hdc & Hos).
      unfold run_deferred. rewrite Hdc.
      exists w', R. split; [reflexivity|]. split; [reflexivity|].
      split; [|split; reflexivity].
      rewrite (only_streams_resps _ _ Hos). assumption.
Qed.

(** A 404 answer, as the test server gives for an unknown path. *)
Lemma responseCallback_status_witness :
  exists wf R',
    Do (sample_client (answer 404 "404 Not Found" (Some good_body)) false)
       background (Some sample_request) VNil empty_world
    = Ret (Some 0%nat, Some (errors_New "404 Not Found")) wf
    /\ Error (errors_New "404 Not Found") = "404 Not Found"
    /\ resps wf !! 0%nat = Some R'
    /\ StatusCode R' = 404 /\ Status R' = "404 Not Found".
Proof.
  apply (proj2 (responseCallback_status Standin.lib)
           (sample_client (answer 404 "404 Not Found" (Some good_body)) false)
           background (Some sample_request) VNil empty_world
           (mkWorld [good_body] [mkResponse 404 "404 Not Found" (RCref 0)] [] []
                    [(background, sample_request)])
           0%nat (mkResponse 404 "404 Not Found" (RCref 0))).
  - reflexivity.
  - reflexivity.
  - reflexivity.
  - reflexivity.
  - simpl. eexists; reflexivity.
  - unfold status_2xx. simpl. lia.
Defined.

(** ** [NewRequest] *)

Lemma NewRequest_assembled {L} (c : Client L) (method urlStr : string) (body : Value)
  (rel : URL L) (m : MarshalerFunc) (buf : Writer) (contentType : string) :
  url_Parse L urlStr = inr rel ->
  Marshaler c = Some m ->
  m new_Buffer body (ContentType c) = (buf, (contentType, None)) ->
  http_NewRequest_err L (http_method method)
    (URL_String L (ResolveReference L (BaseURL c) rel)) = None ->
  NewRequest c method urlStr body =
  match RequestCallback c with
  | None => Panicked "RequestCallback is nil"
  | Some cb =>
      Returned (client_after_NewRequest c contentType,
                (cb (assembled_request c method rel contentType (wbuf buf)), None))
  end.
Proof.
  intros Hu Hm Hmar Hnew. unfold NewRequest, http_NewRequest.
  rewrite Hu, Hm, Hmar, Hnew. reflexivity.
Qed.

(** C1, as the code has it. Once the address has parsed, the payload has
    been marshalled and the request has been built, [NewRequest] hands the
    assembled request (the method, GET for an empty one, the resolved
    address as [http.NewRequest] normalises it, the headers, the body) to
    the request callback and returns what the callback returns, with a nil
    error; a nil request from the callback is returned as it is. The fatal
    failure is for a client whose callback field is nil. *)
Theorem NewRequest_returns_callback_result {L} (c : Client L)
  (method urlStr : string) (body : Value)
  (rel : URL L) (m : MarshalerFunc) (buf : Writer) (contentType : string) :
  url_Parse L urlStr = inr rel ->
  Marshaler c = Some m ->
  m new_Buffer body (ContentType c) = (buf, (contentType, None)) ->
  http_NewRequest_err L (http_method method)
    (URL_String L (ResolveReference L (BaseURL c) rel)) = None ->
  (forall cb : RequestCallbackFunc,
     RequestCallback c = Some cb ->
     NewRequest c method urlStr body
     = Returned (client_after_NewRequest c contentType,
                 (cb (assembled_request c method rel contentType (wbuf buf)), None)))
  /\ (RequestCallback c = None ->
      NewRequest c method urlStr body = Panicked "RequestCallback is nil").
Proof.
  intros Hu Hm Hmar Hnew.
  rewrite (NewRequest_assembled c method urlStr body rel m buf contentType Hu Hm Hmar Hnew).
  split.
  - intros cb ->. reflexivity.
  - intros ->. reflexivity.
Qed.

(** The request of the tests: [GET node] against [https://hostname.domain],
    no payload, the default callback; and the same with an empty method,
    which the request carries as GET. *)
Lemma NewRequest_returns_callback_result_witness :
  NewRequest (sample_client Standin.refuse false) "GET" "node" VNil
  = Returned (sample_client Standin.refuse false,
              (Some (mkRequest "GET" "https://hostname.domain/node"
                               [("Content-Type", ["application/json"]);
                                ("Accept", ["application/json"])] []),
               None))
  /\ NewRequest (sample_client Standin.refuse false) EmptyString "node" VNil
     = Returned (sample_client Standin.refuse false,
                 (Some (mkRequest "GET" "https://hostname.domain/node"
                                  [("Content-Type", ["application/json"]);
                                   ("Accept", ["application/json"])] []),
                  None)).
Proof.
  split.
  - apply (proj1 (NewRequest_returns_callback_result
                    (sample_client Standin.refuse false) "GET" "node" VNil
                    "node" (marshal Standin.lib) new_Buffer ContentTypeJSON
                    eq_refl eq_refl eq_refl eq_refl)
                 requestCallback eq_refl).
  - apply (proj1 (NewRequest_returns_callback_result
                    (sample_client Standin.refuse false) EmptyString "node" VNil
                    "node" (marshal Standin.lib) new_Buffer ContentTypeJSON
                    eq_refl eq_refl eq_refl eq_refl)
                 requestCallback eq_refl).
Defined.

(** C1 as stated fails: a callback that returns nil makes [NewRequest]
    return the nil request with a nil error; nothing panics. *)
Lemma NewRequest_returns_nil_request :
  NewRequest (set_RequestCallback (sample_client Standin.refuse false)
                                  (Some dropping_callback))
             "GET" "node" VNil
  = Returned (set_RequestCallback (sample_client Standin.refuse false)
                                  (Some dropping_callback),
              (None, None)).
Proof. reflexivity. Qed.

(** ** Absent collaborators *)

Lemma run_deferred_panics {A} (df : option nat -> M unit) (resp : option nat)
  (msg : string) (w : World) :
  exists msg' wf, @run_deferred A df (resp, Panic msg w) = Panic msg' wf.
Proof.
  unfold run_deferred. destruct (df resp w) as [[] w'|msg' w'];
    eexists; eexists; reflexivity.
Qed.

(** C4, as the code has it. Each nil check sits where the collaborator is
    about to be called, and a failure met earlier is returned as an
    ordinary error. [NewRequest] panics on a nil [Marshaler] once the
    address has parsed, and on a nil [RequestCallback] once the payload has
    been marshalled and the request built. [Do] panics on a nil
    [ResponseCallback] once the limiter has admitted the call and the
    transport has returned without error, and on a nil [Unmarshaler] once,
    after that, the response callback has returned without error. In [Do]
    the deferred closure runs before the panic leaves the function; when it
    returns, the panic is the one of the nil check.

    The six failures that come first are returned, whatever collaborators
    the client lacks, for the statements ask nothing of the fields that the
    code has not reached: the error of the address, of the marshaler and of
    the request construction by [NewRequest], with a nil request and the
    client untouched; the throttling error, the error of the transport with
    the response of the transport, and the error of the response callback
    with its response, once the deferred closure has run on that response
    and returned, by [Do]. *)
Theorem absent_collaborator_panics {L} (c : Client L) :
  (forall (method urlStr : string) (body : Value) (rel : URL L),
     Marshaler c = None ->
     url_Parse L urlStr = inr rel ->
     NewRequest c method urlStr body = Panicked "Marshaler is nil")
  /\
  (forall (method urlStr : string) (body : Value) (rel : URL L)
          (m : MarshalerFunc) (buf : Writer) (contentType : string),
     RequestCallback c = None ->
     url_Parse L urlStr = inr rel ->
     Marshaler c = Some m ->
     m new_Buffer body (ContentType c) = (buf, (contentType, None)) ->
     http_NewRequest_err L (http_method method)
       (URL_String L (ResolveReference L (BaseURL c) rel)) = None ->
     NewRequest c method urlStr body = Panicked "RequestCallback is nil")
  /\
  (forall (ctx : Context) (req : option Request) (v : Value) (w w1 : World)
          (resp : option nat),
     ResponseCallback c = None ->
     limiter_Wait c ctx = None ->
     client_Do c ctx req w = Ret (resp, None) w1 ->
     (exists msg wf, Do c ctx req v w = Panic msg wf)
     /\ (forall deferFunc w2 wf,
           manage_body c resp w1 = Ret deferFunc w2 ->
           deferFunc resp w2 = Ret tt wf ->
           Do c ctx req v w = Panic "ResponseCallback is nil" wf))
  /\
  (forall (ctx : Context) (req : option Request) (v : Value) (w w1 w2 w3 : World)
          (resp resp' : option nat) (cb : ResponseCallbackFunc)
          (deferFunc : option nat -> M unit),
     Unmarshaler c = None ->
     limiter_Wait c ctx = None ->
     client_Do c ctx req w = Ret (resp, None) w1 ->
     manage_body c resp w1 = Ret deferFunc w2 ->
     ResponseCallback c = Some cb ->
     cb resp w2 = Ret (resp', None) w3 ->
     (exists msg wf, Do c ctx req v w = Panic msg wf)
     /\ (forall wf,
           deferFunc resp' w3 = Ret tt wf ->
           Do c ctx req v w = Panic "Unmarshaler is nil" wf))
  /\
  (forall (method urlStr : string) (body : Value) (e : error),
     url_Parse L urlStr = inl e ->
     NewRequest c method urlStr body = Returned (c, (None, Some e)))
  /\
  (forall (method urlStr : string) (body : Value) (rel : URL L)
          (m : MarshalerFunc) (buf : Writer) (contentType : string) (e : error),
     url_Parse L urlStr = inr rel ->
     Marshaler c = Some m ->
     m new_Buffer body (ContentType c) = (buf, (contentType, Some e)) ->
     NewRequest c method urlStr body = Returned (c, (None, Some e)))
  /\
  (forall (method urlStr : string) (body : Value) (rel : URL L)
          (m : MarshalerFunc) (buf : Writer) (contentType : string) (e : error),
     url_Parse L urlStr = inr rel ->
     Marshaler c = Some m ->
     m new_Buffer body (ContentType c) = (buf, (contentType, None)) ->
     http_NewRequest_err L (http_method method)
       (URL_String L (ResolveReference L (BaseURL c) rel)) = Some e ->
     NewRequest c method urlStr body = Returned (c, (None, Some e)))
  /\
  (forall (ctx : Context) (req : option Request) (v : Value) (w : World)
          (e : error),
     limiter_Wait c ctx = Some e ->
     Do c ctx req v w = Ret (None, Some ErrTooManyRequest) w)
  /\
  (forall (ctx : Context) (req : option Request) (v : Value) (w w1 : World)
          (resp : option nat) (e : error),
     limiter_Wait c ctx = None ->
     client_Do c ctx req w = Ret (resp, Some e) w1 ->
     Do c ctx req v w = Ret (resp, Some e) w1)
  /\
  (forall (ctx : Context) (req : option Request) (v : Value)
          (w w1 w2 w3 wf : World) (resp resp' : option nat)
          (cb : ResponseCallbackFunc) (deferFunc : option nat -> M unit)
          (e : error),
     limiter_Wait c ctx = None ->
     client_Do c ctx req w = Ret (resp, None) w1 ->
     manage_body c resp w1 = Ret deferFunc w2 ->
     ResponseCallback c = Some cb ->
     cb resp w2 = Ret (resp', Some e) w3 ->
     deferFunc resp' w3 = Ret tt wf ->
     Do c ctx req v w = Ret (resp', Some e) wf).
Proof.
  repeat match goal with |- _ /\ _ => split end.
  - intros method urlStr body rel Hm Hu. unfold NewRequest. rewrite Hu, Hm.
    reflexivity.
  - intros method urlStr body rel m buf contentType Hcb Hu Hm Hmar Hnew.
    rewrite (NewRequest_assembled c method urlStr body rel m buf contentType
               Hu Hm Hmar Hnew), Hcb.
    reflexivity.
  - intros ctx req v w w1 resp Hcb Hlim Hsend.
    rewrite (Do_admitted c ctx req v w w1 resp Hlim Hsend). split.
    + destruct (manage_body c resp w1) as [df w2|msg w2].
      * unfold Do_protected. rewrite Hcb. apply run_deferred_panics.
      * eexists; eexists; reflexivity.
    + intros df w2 wf -> Hdf. unfold Do_protected. rewrite Hcb.
      unfold run_deferred. rewrite Hdf. reflexivity.
  - intros ctx req v w w1 w2 w3 resp resp' cb df Hum Hlim Hsend Hmb Hcb Hres.
    rewrite (Do_admitted c ctx req v w w1 resp Hlim Hsend), Hmb.
    unfold Do_protected. rewrite Hcb, Hres, Hum. split.
    + apply run_deferred_panics.
    + intros wf Hdf. unfold run_deferred. rewrite Hdf. reflexivity.
  - intros method urlStr body e Hu. unfold NewRequest. rewrite Hu. reflexivity.
  - intros method urlStr body rel m buf contentType e Hu Hm Hmar.
    unfold NewRequest. rewrite Hu, Hm, Hmar. reflexivity.
  - intros method urlStr body rel m buf contentType e Hu Hm Hmar Hnew.
    unfold NewRequest, http_NewRequest. rewrite Hu, Hm, Hmar, Hnew. reflexivity.
  - intros ctx req v w e Hlim. unfold Do. rewrite Hlim. reflexivity.
  - intros ctx req v w w1 resp e Hlim Hsend. unfold Do, bind.
    rewrite Hlim, Hsend. reflexivity.
  - intros ctx req v w w1 w2 w3 wf resp resp' cb df e Hlim Hsend Hmb Hcb Hres Hdf.
    rewrite (Do_admitted c ctx req v w w1 resp Hlim Hsend), Hmb.
    unfold Do_protected. rewrite Hcb, Hres. unfold run_deferred.
    rewrite Hdf. reflexivity.
Qed.

(** The four tests of the suite that assign nil to a field, with the
    request [GET node] and a server that answers 200; then two failures
    that come before a nil check: the invalid address of the tests under a
    nil [Marshaler], and a 404 answer under a nil [Unmarshaler]. *)
Lemma absent_collaborator_panics_witness :
  NewRequest (set_Marshaler (sample_client Standin.refuse false) None)
             "GET" "node" VNil
  = Panicked "Marshaler is nil"
  /\ NewRequest (set_RequestCallback (sample_client Standin.refuse false) None)
                "GET" "node" VNil
     = Panicked "RequestCallback is nil"
  /\ (exists wf,
        Do (set_ResponseCallback
              (sample_client (answer 200 "200 OK" (Some good_body)) false) None)
           background (Some sample_request) VNil empty_world
        = Panic "ResponseCallback is nil" wf)
  /\ (exists wf,
        Do (set_Unmarshaler
              (sample_client (answer 200 "200 OK" (Some good_body)) false) None)
           background (Some sample_request) VNil empty_world
        = Panic "Unmarshaler is nil" wf)
  /\ NewRequest (set_Marshaler (sample_client Standin.refuse false) None)
                "GET" baseurlInvalid VNil
     = Returned (set_Marshaler (sample_client Standin.refuse false) None,
                 (None, Some (errors_New "invalid character in host name")))
  /\ (exists wf,
        Do (set_Unmarshaler
              (sample_client (answer 404 "404 Not Found" (Some good_body)) false)
              None)
           background (Some sample_request) VNil empty_world
        = Ret (Some 0%nat, Some (errors_New "404 Not Found")) wf).
Proof.
  split; [|split; [|split; [|split; [|split]]]].
  - pose proof (absent_collaborator_panics
                  (set_Marshaler (sample_client Standin.refuse false) None))
      as (H & _).
    apply (H "GET" "node" VNil "node" eq_refl eq_refl).
  - pose proof (absent_collaborator_panics
                  (set_RequestCallback (sample_client Standin.refuse false) None))
      as (_ & H & _).
    apply (H "GET" "node" VNil "node" (marshal Standin.lib) new_Buffer
             ContentTypeJSON eq_refl eq_refl eq_refl eq_refl eq_refl).
  - pose proof (absent_collaborator_panics
                  (set_ResponseCallback
                     (sample_client (answer 200 "200 OK" (Some good_body)) false)
                     None))
      as (_ & _ & H & _).
    eexists.
    apply (proj2 (H background (Some sample_request) VNil empty_world _
                    (Some 0%nat) eq_refl eq_refl eq_refl)
                 defer_close _ _ eq_refl eq_refl).
  - pose proof (absent_collaborator_panics
                  (set_Unmarshaler
                     (sample_client (answer 200 "200 OK" (Some good_body)) false)
                     None))
      as (_ & _ & _ & H & _).
    eexists.
    apply (proj2 (H background (Some sample_request) VNil empty_world _ _ _
                    (Some 0%nat) (Some 0%nat) responseCallback defer_close
                    eq_refl eq_refl eq_refl eq_refl eq_refl eq_refl)
                 _ eq_refl).
  - pose proof (absent_collaborator_panics
                  (set_Marshaler (sample_client Standin.refuse false) None))
      as (_ & _ & _ & _ & H & _).
    apply (H "GET" baseurlInvalid VNil
             (errors_New "invalid character in host name") eq_refl).
  - pose proof (absent_collaborator_panics
                  (set_Unmarshaler
                     (sample_client (answer 404 "404 Not Found" (Some good_body)) false)
                     None))
      as (_ & _ & _ & _ & _ & _ & _ & _ & _ & H).
    eexists.
    eapply (H background (Some sample_request) VNil empty_world _ _ _ _
              (Some 0%nat) (Some 0%nat) responseCallback defer_close
              (errors_New "404 Not Found"));
      reflexivity.
Defined.

(** C4 as stated fails: with a nil [Marshaler] and an address that does not
    parse, [NewRequest] returns the parse error; with a nil [Unmarshaler]
    and a 404 answer, [Do] returns the error of the response callback, and
    the body is closed. Neither panics. *)
Lemma absent_collaborator_without_panic :
  NewRequest (set_Marshaler (sample_client Standin.refuse false) None)
             "GET" baseurlInvalid VNil
  = Returned (set_Marshaler (sample_client Standin.refuse false) None,
              (None, Some (errors_New "invalid character in host name")))
  /\ Do (set_Unmarshaler
           (sample_client (answer 404 "404 Not Found" (Some good_body)) false) None)
        background (Some sample_request) VNil empty_world
     = Ret (Some 0%nat, Some (errors_New "404 Not Found"))
           (mkWorld [mkStream NetBody hello None None true]
                    [mkResponse 404 "404 Not Found" (RCref 0)] [] []
                    [(background, sample_request)]).
Proof. split; reflexivity. Qed.

(** ** The body after [Do] *)


(** When [drainBody] returns no error, the saved half is the sentinel, for
    the sentinel, or a new stream that holds all that the body had to
    deliver. *)
Lemma drainBody_success_inv (b save body' : ReadCloser) (d : bytes) (w w' w2 : World) :
  drainBody b w = Ret (save, body', None) w2 ->
  ReadAll b w = Ret (d, None) w' ->
  only_streams w w2
  /\ ((save = NoBody /\ d = [])
      \/ exists k, save = RCref k
                   /\ streams w2 !! k = Some (mkStream NopCloser d None None false)).
Proof.
  destruct b as [| |k]; try discriminate.
  - intros [= <- _ <-] [= <-]. split; [apply only_streams_refl|]. left. auto.
  - destruct (streams w !! k) as [s|] eqn:Hs.
    + rewrite (ReadAll_ref _ _ _ Hs).
      destruct (stream_read_all s) as [s' [d' [e'|]]] eqn:Hr.
      * rewrite (drainBody_read_failure _ _ _ _ _ _ Hs Hr). discriminate.
      * destruct (stream_close s') as [s'' [e'|]] eqn:Hc.
        -- rewrite (drainBody_close_failure _ _ _ _ _ _ _ Hs Hr Hc). discriminate.
        -- rewrite (drainBody_success _ _ _ _ _ _ Hs Hr Hc).
           intros [= <- _ <-] [= <- _]. split; [apply only_streams_set|].
           right. eexists. split; [reflexivity|]. simpl.
           apply list_lookup_middle. rewrite length_insert. reflexivity.
    + unfold ReadAll. rewrite Hs. discriminate.
Qed.

Lemma set_Body_same (R : Response) : set_Body R (Body R) = R.
Proof. destruct R; reflexivity. Qed.

Lemma set_resps_same (w : World) : set_resps w (resps w) = w.
Proof. destruct w; reflexivity. Qed.

(** The statements after the [defer], when the callback and the
    unmarshaler return. *)
Lemma Do_protected_decoded {L} (c : Client L) (v : Value) (resp : option nat)
  (cb : ResponseCallbackFunc) (um : UnmarshalerFunc)
  (l' : nat) (R3 : Response) (w2 w3 w4 : World) (uerr : option error) :
  ResponseCallback c = Some cb ->
  Unmarshaler c = Some um ->
  cb resp w2 = Ret (Some l', None) w3 ->
  resps w3 !! l' = Some R3 ->
  um (Body R3) v (ContentType c) w3 = Ret uerr w4 ->
  Do_protected c v resp w2 = (Some l', Ret (Some l', uerr) w4).
Proof.
  intros Hcb Hum Hres HR3 Hdec. unfold Do_protected, bind, get_Body, ret.
  rewrite Hcb, Hres, Hum, HR3, Hdec. reflexivity.
Qed.

Lemma run_deferred_restore {A} (a : A) (save : ReadCloser) (l : nat) (R : Response)
  (w : World) :
  resps w !! l = Some R ->
  run_deferred (defer_restore save) (Some l, Ret a w)
  = Ret a (set_resps w (<[l := set_Body R save]> (resps w))).
Proof.
  intros HR. unfold run_deferred, defer_restore, put_Body. rewrite HR. reflexivity.
Qed.



Lemma ReadAll_after_close (w4 w5 : World) (k : nat) (s : Stream) (cerr : option error) :
  streams w4 !! k = Some s ->
  skind s = NetBody -> scerr s = None ->
  Close (RCref k) w4 = Ret cerr w5 ->
  cerr = None /\ ReadAll (RCref k) w5 = Ret ([], Some errBodyReadAfterClose) w5.
Proof.
  intros Hs Hkind Hce. rewrite (Close_ref _ _ _ Hs).
  unfold stream_close. rewrite Hkind, Hce. cbn [fst snd].
  intros [= <- <-]. split; [reflexivity|].
  pose proof (lookup_lt_Some _ _ _ Hs) as Hlt.
  set (s' := mkStream NetBody (sdata s) (srerr s) None true).
  assert (Hs' : streams (set_streams w4 (<[k := s']> (streams w4))) !! k = Some s').
  { simpl. apply list_lookup_insert_eq. assumption. }
  rewrite (ReadAll_ref _ _ _ Hs'). cbn [stream_read_all s' skind sclosed fst snd].
  simpl. rewrite list_insert_insert_eq. reflexivity.
Qed.

(** C2, as the code has it.

    The body kept, and [drainBody] without error: the split is made before
    the callback and the unmarshaler run, and on every path on which [Do]
    then returns the response of the callback (the callback returned an
    error; or it returned none and the unmarshaler returned, with or without
    an error) the body of that response is the saved half, and, the stages
    that ran having left that half alone, reading it to the end yields
    without error the bytes [d] that the body delivered.

    The body not kept, on the paths where the callback returns without
    error and the unmarshaler returns, with or without an error: [Do] has
    called [Close] on the body of the response it returns, and its store is
    the one that call leaves; when that body is a stream of the transport
    whose [Close] does not fail, reading it afterwards fails. *)
Theorem Do_body_after_return {L} (c : Client L) (ctx : Context)
  (req : option Request) (v : Value) (w w1 : World) (l : nat) (R : Response) :
  limiter_Wait c ctx = None ->
  client_Do c ctx req w = Ret (Some l, None) w1 ->
  resps w1 !! l = Some R ->
  (keepResponseBody c = true ->
   forall (d : bytes) (w1' w2 : World) (save body' : ReadCloser)
          (cb : ResponseCallbackFunc),
     ReadAll (Body R) w1 = Ret (d, None) w1' ->
     drainBody (Body R) w1 = Ret (save, body', None) w2 ->
     ResponseCallback c = Some cb ->
     (forall (w3 : World) (l' : nat) (R3 : Response) (e : error),
        cb (Some l) (set_resps w2 (<[l := set_Body R body']> (resps w2)))
        = Ret (Some l', Some e) w3 ->
        resps w3 !! l' = Some R3 ->
        stream_kept w2 w3 save ->
        exists wf wr,
          Do c ctx req v w = Ret (Some l', Some e) wf
          /\ resps wf !! l' = Some (set_Body R3 save)
          /\ ReadAll save wf = Ret (d, None) wr)
     /\
     (forall (w3 w4 : World) (um : UnmarshalerFunc) (l' : nat)
             (R3 R4 : Response) (uerr : option error),
        Unmarshaler c = Some um ->
        cb (Some l) (set_resps w2 (<[l := set_Body R body']> (resps w2)))
        = Ret (Some l', None) w3 ->
        resps w3 !! l' = Some R3 ->
        um (Body R3) v (ContentType c) w3 = Ret uerr w4 ->
        resps w4 !! l' = Some R4 ->
        stream_kept w2 w4 save ->
        exists wf wr,
          Do c ctx req v w = Ret (Some l', uerr) wf
          /\ resps wf !! l' = Some (set_Body R4 save)
          /\ ReadAll save wf = Ret (d, None) wr))
  /\
  (keepResponseBody c = false ->
   forall (w3 w4 w5 : World)
          (cb : ResponseCallbackFunc) (um : UnmarshalerFunc) (l' : nat)
          (R3 R4 : Response) (uerr cerr : option error),
     ResponseCallback c = Some cb ->
     Unmarshaler c = Some um ->
     cb (Some l) w1 = Ret (Some l', None) w3 ->
     resps w3 !! l' = Some R3 ->
     um (Body R3) v (ContentType c) w3 = Ret uerr w4 ->
     resps w4 !! l' = Some R4 ->
     Close (Body R4) w4 = Ret cerr w5 ->
     Do c ctx req v w = Ret (Some l', uerr) w5
     /\ resps w5 !! l' = Some R4
     /\ (forall (k : nat) (s : Stream),
           Body R4 = RCref k -> streams w4 !! k = Some s ->
           skind s = NetBody -> scerr s = None ->
           ReadAll (RCref k) w5 = Ret ([], Some errBodyReadAfterClose) w5)).
Proof.
  intros Hlim Hsend HR.
  rewrite (Do_admitted c ctx req v w w1 (Some l) Hlim Hsend). split.
  - intros Hk d w1' w2 save body' cb Hread Hd Hcb.
    destruct (drainBody_success_inv _ _ _ _ _ _ _ Hd Hread) as (Hos & Hsave).
    rewrite (manage_body_keep c l R w1 w2 save body' None Hk HR Hd Hos).
    assert (Hfin : forall (a : option nat * option error) (w4 : World) (l' : nat)
                          (R4 : Response),
              resps w4 !! l' = Some R4 ->
              stream_kept w2 w4 save ->
              exists wf wr,
                run_deferred (defer_restore save) (Some l', Ret a w4) = Ret a wf
                /\ resps wf !! l' = Some (set_Body R4 save)
                /\ ReadAll save wf = Ret (d, None) wr).
    { intros a w4 l' R4 HR4 Hkept.
      rewrite (run_deferred_restore a save l' R4 w4 HR4).
      set (wf := set_resps w4 (<[l' := set_Body R4 save]> (resps w4))).
      assert (HRf : resps wf !! l' = Some (set_Body R4 save)).
      { simpl. apply list_lookup_insert_eq. eapply lookup_lt_Some; eauto. }
      destruct Hsave as [[-> ->]|(k & -> & Hcopy)].
      - exists wf, wf. repeat split; auto.
      - exists wf. eexists. split; [reflexivity|]. split; [exact HRf|].
        apply ReadAll_copy. simpl. simpl in Hkept. rewrite Hkept. exact Hcopy. }
    split.
    + intros w3 l' R3 e Hres HR3 Hkept.
      unfold Do_protected. rewrite Hcb, Hres.
      apply (Hfin _ w3 l' R3 HR3 Hkept).
    + intros w3 w4 um l' R3 R4 uerr Hum Hres HR3 Hdec HR4 Hkept.
      rewrite (Do_protected_decoded c v (Some l) cb um l' R3 _ w3 w4 uerr
                 Hcb Hum Hres HR3 Hdec).
      apply (Hfin _ w4 l' R4 HR4 Hkept).
  - intros Hk w3 w4 w5 cb um l' R3 R4 uerr cerr Hcb Hum Hres HR3 Hdec HR4 Hclose.
    rewrite (manage_body_close c (Some l) w1 Hk).
    rewrite (Do_protected_decoded c v (Some l) cb um l' R3 _ w3 w4 uerr
               Hcb Hum Hres HR3 Hdec).
    unfold run_deferred, defer_close, bind, get_Body. rewrite HR4, Hclose.
    split; [reflexivity|]. split.
    + rewrite (only_streams_resps _ _ (Close_only_streams _ _ _ _ Hclose)).
      exact HR4.
    + intros k s Hb Hs Hkind Hce. rewrite Hb in Hclose.
      apply (ReadAll_after_close w4 w5 k s cerr Hs Hkind Hce Hclose).
Qed.

(** The two tests of the suite on the body: a 200 answer delivering
    [hello], no decoding asked for. With the body kept, the caller reads
    [hello] from the response; without, the read fails. And a 404 answer
    with the body kept: [Do] returns the error of the status, and the caller
    still reads [hello]. *)
Lemma Do_body_after_return_witness :
  (exists wf wr,
     Do (sample_client (answer 200 "200 OK" (Some good_body)) true)
        background (Some sample_request) VNil empty_world
     = Ret (Some 0%nat, None) wf
     /\ resps wf !! 0%nat = Some (mkResponse 200 "200 OK" (RCref 1))
     /\ ReadAll (RCref 1) wf = Ret (hello, None) wr)
  /\
  (exists wf,
     Do (sample_client (answer 200 "200 OK" (Some good_body)) false)
        background (Some sample_request) VNil empty_world
     = Ret (Some 0%nat, None) wf
     /\ resps wf !! 0%nat = Some (mkResponse 200 "200 OK" (RCref 0))
     /\ ReadAll (RCref 0) wf = Ret ([], Some errBodyReadAfterClose) wf)
  /\
  (exists wf wr,
     Do (sample_client (answer 404 "404 Not Found" (Some good_body)) true)
        background (Some sample_request) VNil empty_world
     = Ret (Some 0%nat, Some (errors_New "404 Not Found")) wf
     /\ resps wf !! 0%nat = Some (mkResponse 404 "404 Not Found" (RCref 1))
     /\ ReadAll (RCref 1) wf = Ret (hello, None) wr).
Proof.
  set (R := mkResponse 200 "200 OK" (RCref 0)).
  set (w1 := mkWorld [good_body] [R] [] [] [(background, sample_request)]).
  split; [|split].
  - pose proof (proj1 (Do_body_after_return
                  (sample_client (answer 200 "200 OK" (Some good_body)) true)
                  background (Some sample_request) VNil empty_world w1 0%nat R
                  eq_refl eq_refl eq_refl) eq_refl) as Hkeep.
    eapply (proj2 (Hkeep hello _ _ (RCref 1) (RCref 2) responseCallback
                         eq_refl eq_refl eq_refl)
                  _ _ (unmarshal Standin.lib) 0%nat
                  (mkResponse 200 "200 OK" (RCref 2))
                  (mkResponse 200 "200 OK" (RCref 2)) None);
      reflexivity.
  - pose proof (proj2 (Do_body_after_return
                  (sample_client (answer 200 "200 OK" (Some good_body)) false)
                  background (Some sample_request) VNil empty_world w1 0%nat R
                  eq_refl eq_refl eq_refl) eq_refl) as Hclose.
    destruct (Hclose w1 w1 _ responseCallback (unmarshal Standin.lib) 0%nat R R
                     None None eq_refl eq_refl eq_refl eq_refl eq_refl eq_refl
                     eq_refl) as (HDo & HR & Hread).
    eexists. split; [exact HDo|]. split; [exact HR|].
    apply (Hread 0%nat good_body); reflexivity.
  - pose proof (proj1 (Do_body_after_return
                  (sample_client (answer 404 "404 Not Found" (Some good_body)) true)
                  background (Some sample_request) VNil empty_world
                  (mkWorld [good_body] [mkResponse 404 "404 Not Found" (RCref 0)]
                           [] [] [(background, sample_request)])
                  0%nat (mkResponse 404 "404 Not Found" (RCref 0))
                  eq_refl eq_refl eq_refl) eq_refl) as Hkeep.
    eapply (proj1 (Hkeep hello _ _ (RCref 1) (RCref 2) responseCallback
                         eq_refl eq_refl eq_refl)
                  _ 0%nat (mkResponse 404 "404 Not Found" (RCref 2))
                  (errors_New "404 Not Found"));
      reflexivity.
Defined.

(** C2 as stated fails on each side. The body kept and the connection
    breaking while it is drained: [Do] returns without error a response
    whose body is nil, and reading it panics. The body not kept: a response
    without content has [http.NoBody] as its body, on which [Close] does
    nothing, and reading it after [Do] succeeds, with no bytes. *)
Lemma Do_body_not_as_stated :
  (exists wf,
     Do (sample_client (answer 200 "200 OK" (Some broken_body)) true)
        background (Some sample_request) VNil empty_world
     = Ret (Some 0%nat, None) wf
     /\ resps wf !! 0%nat = Some (mkResponse 200 "200 OK" RCnil)
     /\ ReadAll RCnil wf = Panic nil_deref wf)
  /\
  (exists wf,
     Do (sample_client (answer 204 "204 No Content" None) false)
        background (Some sample_request) VNil empty_world
     = Ret (Some 0%nat, None) wf
     /\ resps wf !! 0%nat = Some (mkResponse 204 "204 No Content" NoBody)
     /\ ReadAll NoBody wf = Ret ([], None) wf).
Proof.
  split.
  - eexists. repeat split.
  - eexists. repeat split.
Qed.

(** * Further properties of the package *)

(** ** [New] and the options *)

Lemma apply_opts_app {L} (xs ys : list (Opt L)) (c : Client L) :
  apply_opts L (xs ++ ys) c =
  match apply_opts L xs c with
  | inl e => inl e
  | inr c' => apply_opts L ys c'
  end.
Proof.
  revert c. induction xs as [|opt xs IH]; intros c; simpl; [reflexivity|].
  destruct (opt c) as [e|c']; [reflexivity|apply IH].
Qed.

Lemma New_app (L : Lib) (baseURL : string) (xs ys : list (Opt L)) :
  New L baseURL (xs ++ ys) =
  match New L baseURL xs with
  | inl e => inl e
  | inr c => apply_opts L ys c
  end.
Proof.
  unfold New. destruct (url_Parse L baseURL) as [e|u]; [reflexivity|].
  apply apply_opts_app.
Qed.

(** X1. The options are applied from left to right and the first one that
    fails ends the construction: when the options before it build the
    client [c0] and the option rejects [c0], [New] returns that error,
    whatever options follow. *)
Theorem New_first_failing_option (L : Lib) (baseURL : string)
  (before after : list (Opt L)) (opt : Opt L) (c0 : Client L) (e : error) :
  New L baseURL before = inr c0 ->
  opt c0 = inl e ->
  New L baseURL (before ++ opt :: after) = inl e.
Proof.
  intros Hb Hopt. rewrite New_app, Hb. simpl. rewrite Hopt. reflexivity.
Qed.

Lemma New_first_failing_option_witness :
  New Standin.lib "https://hostname.domain"
      ([WithUsername Standin.lib "cognitive"]
       ++ WithPassword Standin.lib EmptyString
       :: [WithContentType Standin.lib EmptyString; WithKeepResponseBody Standin.lib])
  = inl (errors_New "password cannot be empty").
Proof.
  apply (New_first_failing_option Standin.lib "https://hostname.domain"
           [WithUsername Standin.lib "cognitive"] _
           (WithPassword Standin.lib EmptyString) _ _ eq_refl eq_refl).
Defined.

Lemma length_0_empty (s : string) :
  Nat.eqb (String.length s) 0 = false -> s <> EmptyString.
Proof. intros H ->. discriminate. Qed.

Lemma StdOpt_keeps_defaults {L} (opt : Opt L) (c c' : Client L) :
  StdOpt opt -> with_defaults c -> opt c = inr c' -> with_defaults c'.
Proof.
  unfold with_defaults.
  intros Hstd (Hm & Hu & Hq & Hr & Hct).
  destruct Hstd as [p|u|t|l|ct|h|];
    unfold WithPassword, WithUsername, WithHTTPClient, WithRateLimiter,
           WithContentType, WithHeader, WithKeepResponseBody, set_header;
    try (destruct (Nat.eqb (String.length _) 0) eqn:Hlen; [discriminate|]);
    intros [= <-]; simpl; repeat split; auto.
  apply length_0_empty; assumption.
Qed.

Lemma apply_opts_keeps_defaults {L} (opts : list (Opt L)) (c c' : Client L) :
  Forall StdOpt opts -> with_defaults c -> apply_opts L opts c = inr c' ->
  with_defaults c'.
Proof.
  intros Hstd. revert c. induction Hstd as [|opt opts Hopt _ IH]; intros c Hc; simpl.
  - intros [= <-]. exact Hc.
  - destruct (opt c) as [e|c1] eqn:Ho; [discriminate|].
    apply IH. eapply StdOpt_keeps_defaults; eauto.
Qed.

Lemma NewRequest_with_defaults_returns {L} (c : Client L)
  (method urlStr : string) (body : Value) :
  with_defaults c -> exists r, NewRequest c method urlStr body = Returned r.
Proof.
  intros (Hm & _ & Hq & _). unfold NewRequest. rewrite Hm, Hq.
  destruct (url_Parse L urlStr); [eexists; reflexivity|].
  destruct (marshal L new_Buffer body (ContentType c)) as [buf [ct [e|]]];
    [eexists; reflexivity|].
  destruct (http_NewRequest L method _ (wbuf buf)); eexists; reflexivity.
Qed.

(** X2. A client that [New] builds with options of the package, in any
    number and order, has the default marshaler, unmarshaler and callbacks
    and a content type that is not empty: no option removes them. So
    [NewRequest] on it returns, with a request or an error, and never
    panics. *)
Theorem New_keeps_collaborators (L : Lib) (baseURL : string)
  (opts : list (Opt L)) (c : Client L) :
  Forall StdOpt opts ->
  New L baseURL opts = inr c ->
  with_defaults c
  /\ forall (method urlStr : string) (body : Value),
       exists r, NewRequest c method urlStr body = Returned r.
Proof.
  intros Hstd HNew.
  assert (Hd : with_defaults c).
  { unfold New in HNew. destruct (url_Parse L baseURL) as [e|u]; [discriminate|].
    eapply apply_opts_keeps_defaults; [exact Hstd| |exact HNew].
    unfold with_defaults. simpl. repeat split. discriminate. }
  split; [exact Hd|].
  intros method urlStr body. apply NewRequest_with_defaults_returns. exact Hd.
Qed.

Lemma New_keeps_collaborators_witness :
  with_defaults (sample_client Standin.refuse true)
  /\ forall (method urlStr : string) (body : Value),
       exists r, NewRequest (sample_client Standin.refuse true) method urlStr body
                 = Returned r.
Proof.
  apply (New_keeps_collaborators Standin.lib "https://hostname.domain"
           [WithHTTPClient Standin.lib Standin.refuse;
            WithKeepResponseBody Standin.lib]).
  - repeat constructor.
  - reflexivity.
Defined.

(** ** Headers *)

Lemma Header_Get_Add_eq (h : Header) (k v : string) :
  Header_Get (Header_Add h k v) k = Header_Get h k ++ [v].
Proof.
  induction h as [|[k' vs] h IH]; simpl.
  - rewrite String.eqb_refl. reflexivity.
  - destruct (String.eqb k k') eqn:Hk; simpl; rewrite Hk; [reflexivity|exact IH].
Qed.

Lemma Header_Get_Add_ne (h : Header) (k k' v : string) :
  k <> k' -> Header_Get (Header_Add h k v) k' = Header_Get h k'.
Proof.
  intros Hne. induction h as [|[k0 vs] h IH]; simpl.
  - apply String.eqb_neq in Hne. rewrite String.eqb_sym, Hne. reflexivity.
  - destruct (String.eqb k k0) eqn:Hk; simpl.
    + apply String.eqb_eq in Hk. subst k0.
      apply String.eqb_neq in Hne. rewrite String.eqb_sym, Hne. reflexivity.
    + rewrite IH. reflexivity.
Qed.

Lemma Header_Get_Set_eq (h : Header) (k v : string) :
  Header_Get (Header_Set h k v) k = [v].
Proof.
  induction h as [|[k' vs] h IH]; simpl.
  - rewrite String.eqb_refl. reflexivity.
  - destruct (String.eqb k k') eqn:Hk; simpl; rewrite Hk; [reflexivity|exact IH].
Qed.

Lemma Header_Get_Set_ne (h : Header) (k k' v : string) :
  k <> k' -> Header_Get (Header_Set h k v) k' = Header_Get h k'.
Proof.
  intros Hne. induction h as [|[k0 vs] h IH]; simpl.
  - apply String.eqb_neq in Hne. rewrite String.eqb_sym, Hne. reflexivity.
  - destruct (String.eqb k k0) eqn:Hk; simpl.
    + apply String.eqb_eq in Hk. subst k0.
      apply String.eqb_neq in Hne. rewrite String.eqb_sym, Hne. reflexivity.
    + rewrite IH. reflexivity.
Qed.

(** The header that the assembly starts from: the custom one, or the
    empty one of the new request. *)
Lemma assemble_header_content {L} (c : Client L) (ct : string) :
  let base := match header c with Some h => h | None => [] end in
  Header_Get (assemble_header c [] ct) "Content-Type"
  = Header_Get base "Content-Type" ++ [ct]
  /\ Header_Get (assemble_header c [] ct) "Accept"
     = Header_Get base "Accept" ++ [ct].
Proof.
  intros base. unfold assemble_header. fold base.
  destruct (_ && _); unfold SetBasicAuth; split;
    rewrite ?Header_Get_Add_eq;
    rewrite ?(Header_Get_Add_ne _ "Accept" "Content-Type") by discriminate;
    rewrite ?Header_Get_Add_eq;
    rewrite ?(Header_Get_Add_ne _ "Content-Type" "Accept") by discriminate;
    rewrite ?Header_Get_Set_ne by discriminate;
    reflexivity.
Qed.

(** ** [marshal] and the content type *)

Lemma marshal_media_type (L : Lib) (w : Writer) (v : Value) (mediaType : string) :
  fst (snd (marshal L w v mediaType)) = mediaType.
Proof.
  unfold marshal. destruct (is_nil v); [reflexivity|].
  destruct (String.eqb mediaType ContentTypeJSON) eqn:Hj.
  - apply String.eqb_eq in Hj. destruct (MarshalJSON L w v mediaType).
    simpl. congruence.
  - destruct (String.eqb mediaType ContentTypeYAML) eqn:Hy.
    + apply String.eqb_eq in Hy. destruct (MarshalYAML L w v mediaType).
      simpl. congruence.
    + destruct (String.eqb mediaType ContentTypeText) eqn:Ht.
      * apply String.eqb_eq in Ht. destruct (fmt_Fprint L w v).
        simpl. congruence.
      * reflexivity.
Qed.

(** X3. [marshal] answers with the content type it was given, whatever the
    writer and the payload and whether it succeeds or fails: the default
    marshaler never changes the content type. *)
Theorem marshal_keeps_media_type (L : Lib) (w : Writer) (v : Value)
  (mediaType : string) (w' : Writer) (ct : string) (err : option error) :
  marshal L w v mediaType = (w', (ct, err)) -> ct = mediaType.
Proof.
  intros H. pose proof (marshal_media_type L w v mediaType) as Hk.
  rewrite H in Hk. exact Hk.
Qed.

Lemma marshal_keeps_media_type_witness :
  marshal Standin.lib new_Buffer (VPtr TInt 0) ContentTypeYAML
  = (new_Buffer, (ContentTypeYAML, Some (errors_New "unsupported type")))
  /\ ContentTypeYAML = ContentTypeYAML.
Proof.
  split; [reflexivity|].
  apply (marshal_keeps_media_type Standin.lib new_Buffer (VPtr TInt 0)
           ContentTypeYAML new_Buffer ContentTypeYAML
           (Some (errors_New "unsupported type")) eq_refl).
Defined.

(** ** [NewRequest]: what it returns *)

(** The shape of a call that returned a request through the default
    callback. *)
Lemma NewRequest_success_inv {L} (c c' : Client L) (method urlStr : string)
  (body : Value) (r : Request) :
  RequestCallback c = Some requestCallback ->
  NewRequest c method urlStr body = Returned (c', (Some r, None)) ->
  exists (rel : URL L) (m : MarshalerFunc) (buf : Writer) (ct : string),
    url_Parse L urlStr = inr rel
    /\ Marshaler c = Some m
    /\ m new_Buffer body (ContentType c) = (buf, (ct, None))
    /\ r = assembled_request c method rel ct (wbuf buf)
    /\ c' = client_after_NewRequest c ct.
Proof.
  intros Hcb. unfold NewRequest, http_NewRequest.
  destruct (url_Parse L urlStr) as [e|rel]; [discriminate|].
  destruct (Marshaler c) as [m|]; [|discriminate].
  destruct (m new_Buffer body (ContentType c)) as [buf [ct [e|]]] eqn:Hm;
    [discriminate|].
  destruct (http_NewRequest_err L (http_method method) _) as [e|]; [discriminate|].
  rewrite Hcb. unfold requestCallback. cbn [ReqHeader set_ReqHeader].
  intros [= <- <-]. exists rel, m, buf, ct. repeat split; auto.
Qed.

(** X4. [NewRequest] never returns a request together with an error: when
    it returns an error, of the address, of the marshaler or of the request
    construction, the request is nil, and the client is as it was before
    the call. *)
Theorem NewRequest_error_without_request {L} (c c' : Client L)
  (method urlStr : string) (body : Value) (r : option Request) (e : error) :
  NewRequest c method urlStr body = Returned (c', (r, Some e)) ->
  r = None /\ c' = c.
Proof.
  unfold NewRequest.
  destruct (url_Parse L urlStr) as [e0|rel]; [intros [= <- <- _]; auto|].
  destruct (Marshaler c) as [m|]; [|discriminate].
  destruct (m new_Buffer body (ContentType c)) as [buf [ct [e0|]]];
    [intros [= <- <- _]; auto|].
  destruct (http_NewRequest L method _ (wbuf buf)) as [e0|req];
    [intros [= <- <- _]; auto|].
  destruct (RequestCallback c); discriminate.
Qed.

Lemma NewRequest_error_without_request_witness :
  NewRequest (sample_client Standin.refuse false) "GET" baseurlInvalid VNil
  = Returned (sample_client Standin.refuse false,
              (None, Some (errors_New "invalid character in host name")))
  /\ (@None Request = None
      /\ sample_client Standin.refuse false = sample_client Standin.refuse false).
Proof.
  split; [reflexivity|].
  apply (NewRequest_error_without_request
           (sample_client Standin.refuse false) _ "GET" baseurlInvalid VNil None
           (errors_New "invalid character in host name") eq_refl).
Defined.

(** X5. A request that [NewRequest] returns through the default callback
    carries, as the last value of [Content-Type] and of [Accept], the content
    type that the marshaler answered; the values before it are those of the
    custom header, if there is one. With the default marshaler this is the
    content type of the client. *)
Theorem NewRequest_content_type_headers {L} (c c' : Client L)
  (method urlStr : string) (body : Value) (r : Request) :
  RequestCallback c = Some requestCallback ->
  NewRequest c method urlStr body = Returned (c', (Some r, None)) ->
  let base := match header c with Some h => h | None => [] end in
  (exists (m : MarshalerFunc) (ct : string),
     Marshaler c = Some m
     /\ fst (snd (m new_Buffer body (ContentType c))) = ct
     /\ Header_Get (ReqHeader r) "Content-Type" = Header_Get base "Content-Type" ++ [ct]
     /\ Header_Get (ReqHeader r) "Accept" = Header_Get base "Accept" ++ [ct])
  /\ (Marshaler c = Some (marshal L) ->
      Header_Get (ReqHeader r) "Content-Type"
      = Header_Get base "Content-Type" ++ [ContentType c]
      /\ Header_Get (ReqHeader r) "Accept"
         = Header_Get base "Accept" ++ [ContentType c]).
Proof.
  intros Hcb HNew base.
  destruct (NewRequest_success_inv c c' method urlStr body r Hcb HNew)
    as (rel & m & buf & ct & Hu & Hm & Hmar & -> & _).
  destruct (assemble_header_content c ct) as [HCT HAcc].
  split.
  - exists m, ct. rewrite Hmar. repeat split; auto.
  - intros Hdef. rewrite Hdef in Hm. injection Hm as <-.
    pose proof (marshal_media_type L new_Buffer body (ContentType c)) as Hk.
    rewrite Hmar in Hk. simpl in Hk. subst ct. split; assumption.
Qed.

Lemma NewRequest_content_type_headers_witness :
  Header_Get [("Content-Type", ["application/json"]); ("Accept", ["application/json"])]
             "Content-Type"
  = [] ++ ["application/json"]
  /\ Header_Get [("Content-Type", ["application/json"]); ("Accept", ["application/json"])]
                "Accept"
     = [] ++ ["application/json"].
Proof.
  apply (proj2 (NewRequest_content_type_headers
                  (sample_client Standin.refuse false) _ "GET" "node" VNil
                  (mkRequest "GET" "https://hostname.domain/node"
                             [("Content-Type", ["application/json"]);
                              ("Accept", ["application/json"])] [])
                  eq_refl eq_refl) eq_refl).
Defined.

Lemma nonempty_length (s : string) :
  (0 <? String.length s)%nat = true <-> s <> EmptyString.
Proof.
  destruct s; simpl; split; intros H; try congruence; try discriminate; auto.
Qed.

(** X6. The custom header of the client and the header of the request are
    one map: a client with a custom header leaves [NewRequest] with the
    header of the request it returned, and every further call adds the
    content type once more. After two calls the second request carries the
    content type twice, after the values the custom header had at first. *)
Theorem NewRequest_custom_header_accumulates {L} (c c1 c2 : Client L)
  (h : Header) (method1 urlStr1 method2 urlStr2 : string) (body1 body2 : Value)
  (r1 r2 : Request) :
  header c = Some h ->
  RequestCallback c = Some requestCallback ->
  Marshaler c = Some (marshal L) ->
  NewRequest c method1 urlStr1 body1 = Returned (c1, (Some r1, None)) ->
  NewRequest c1 method2 urlStr2 body2 = Returned (c2, (Some r2, None)) ->
  header c1 = Some (ReqHeader r1)
  /\ Header_Get (ReqHeader r1) "Content-Type"
     = Header_Get h "Content-Type" ++ [ContentType c]
  /\ Header_Get (ReqHeader r2) "Content-Type"
     = Header_Get h "Content-Type" ++ [ContentType c; ContentType c]
  /\ Header_Get (ReqHeader r2) "Accept"
     = Header_Get h "Accept" ++ [ContentType c; ContentType c].
Proof.
  intros Hh Hcb Hm H1 H2.
  destruct (NewRequest_success_inv c c1 _ _ _ r1 Hcb H1)
    as (rel1 & m1 & buf1 & ct1 & _ & Hm1 & Hmar1 & -> & ->).
  rewrite Hm in Hm1. injection Hm1 as <-.
  pose proof (marshal_media_type L new_Buffer body1 (ContentType c)) as Hk1.
  rewrite Hmar1 in Hk1. simpl in Hk1. subst ct1.
  set (h1 := assemble_header c [] (ContentType c)) in *.
  assert (Hc1 : client_after_NewRequest c (ContentType c) = set_header c (Some h1)).
  { unfold client_after_NewRequest. rewrite Hh. reflexivity. }
  rewrite Hc1 in *.
  destruct (NewRequest_success_inv (set_header c (Some h1)) c2 _ _ _ r2 Hcb H2)
    as (rel2 & m2 & buf2 & ct2 & _ & Hm2 & Hmar2 & -> & _).
  simpl in Hm2. rewrite Hm in Hm2. injection Hm2 as <-.
  pose proof (marshal_media_type L new_Buffer body2 (ContentType c)) as Hk2.
  simpl in Hmar2. rewrite Hmar2 in Hk2. simpl in Hk2. subst ct2.
  destruct (assemble_header_content c (ContentType c)) as [HCT1 HAcc1].
  rewrite Hh in HCT1, HAcc1. fold h1 in HCT1, HAcc1.
  destruct (assemble_header_content (set_header c (Some h1)) (ContentType c))
    as [HCT2 HAcc2].
  simpl in HCT2, HAcc2.
  split; [reflexivity|]. split; [exact HCT1|].
  cbn [assembled_request ReqHeader].
  rewrite HCT2, HAcc2, HCT1, HAcc1, <- !app_assoc. split; reflexivity.
Qed.

Lemma NewRequest_custom_header_accumulates_witness :
  let c := set_header (sample_client Standin.refuse false) (Some custom_header) in
  exists c1 c2 r1 r2,
    NewRequest c "GET" "node" VNil = Returned (c1, (Some r1, None))
    /\ NewRequest c1 "GET" "node" VNil = Returned (c2, (Some r2, None))
    /\ header c1 = Some (ReqHeader r1)
    /\ Header_Get (ReqHeader r1) "Content-Type" = [] ++ ["application/json"]
    /\ Header_Get (ReqHeader r2) "Content-Type"
       = [] ++ ["application/json"; "application/json"]
    /\ Header_Get (ReqHeader r2) "Accept"
       = [] ++ ["application/json"; "application/json"].
Proof.
  intros c. do 4 eexists. split; [reflexivity|]. split; [reflexivity|].
  apply (NewRequest_custom_header_accumulates c _ _ custom_header
           "GET" "node" "GET" "node" VNil VNil _ _
           eq_refl eq_refl eq_refl eq_refl eq_refl).
Defined.

(** X7. Basic authentication needs both credentials. When the user name
    and the password are both set, a request returned through the default
    callback has the one [Authorization] value built from them, in place of
    any value of the custom header; when either is empty, [NewRequest]
    leaves [Authorization] as the custom header has it. *)
Theorem NewRequest_basic_auth {L} (c c' : Client L)
  (method urlStr : string) (body : Value) (r : Request) :
  RequestCallback c = Some requestCallback ->
  NewRequest c method urlStr body = Returned (c', (Some r, None)) ->
  let base := match header c with Some h => h | None => [] end in
  (username c <> EmptyString -> password c <> EmptyString ->
   Header_Get (ReqHeader r) "Authorization"
   = [String.append "Basic " (basicAuth L (username c) (password c))])
  /\ (username c = EmptyString \/ password c = EmptyString ->
      Header_Get (ReqHeader r) "Authorization" = Header_Get base "Authorization").
Proof.
  intros Hcb HNew base.
  destruct (NewRequest_success_inv c c' method urlStr body r Hcb HNew)
    as (rel & m & buf & ct & _ & _ & _ & -> & _).
  cbn [assembled_request ReqHeader]. unfold assemble_header. fold base.
  rewrite !Header_Get_Add_ne by discriminate. split.
  - intros Hu Hp. apply nonempty_length in Hu, Hp. rewrite Hu, Hp. simpl.
    unfold SetBasicAuth. apply Header_Get_Set_eq.
  - intros [Hu|Hp].
    + rewrite Hu. reflexivity.
    + rewrite Hp, andb_false_r. reflexivity.
Qed.

Lemma NewRequest_basic_auth_witness :
  Header_Get [("X-Trace", ["on"]); ("Authorization", ["Basic cognitive:distortions"]);
              ("Content-Type", ["application/json"]); ("Accept", ["application/json"])]
             "Authorization"
  = ["Basic cognitive:distortions"].
Proof.
  apply (proj1 (NewRequest_basic_auth
    (mkClient Standin.lib Standin.refuse None "https://hostname.domain"
              ContentTypeJSON "cognitive" "distortions" false (Some custom_header)
              (Some (marshal Standin.lib)) (Some (unmarshal Standin.lib))
              (Some requestCallback) (Some responseCallback))
    _ "GET" "node" VNil
    (mkRequest "GET" "https://hostname.domain/node"
       [("X-Trace", ["on"]); ("Authorization", ["Basic cognitive:distortions"]);
        ("Content-Type", ["application/json"]); ("Accept", ["application/json"])] [])
    eq_refl eq_refl)); discriminate.
Defined.

(** ** [Do]: the deferred closure on the other ways out *)

Lemma manage_body_shape {L} (c : Client L) (resp : option nat) (w w' : World)
  (deferFunc : option nat -> M unit) :
  manage_body c resp w = Ret deferFunc w' ->
  deferFunc = defer_close \/ exists save, deferFunc = defer_restore save.
Proof.
  unfold manage_body, bind.
  destruct (keepResponseBody c).
  - destruct (get_Body resp w) as [b w0|]; [|discriminate].
    destruct (drainBody b w0) as [[[save body'] err] w1|]; [|discriminate].
    destruct (put_Body resp body' w1) as [[] w2|]; [|discriminate].
    intros [= <- _]. right. exists save. reflexivity.
  - intros [= <- _]. left. reflexivity.
Qed.

Lemma deferFunc_nil_response (deferFunc : option nat -> M unit) (w : World) :
  deferFunc = defer_close \/ (exists save, deferFunc = defer_restore save) ->
  deferFunc None w = Panic nil_deref w.
Proof. intros [->|[save ->]]; reflexivity. Qed.

(** X8. When the response callback returns an error, [Do] returns the
    response and the error of the callback, after the deferred closure has
    run on that response; the unmarshaler is not consulted: the result is
    the same with any other unmarshaler, or none, in its place. *)
Theorem Do_callback_error_skips_unmarshaler {L} (c : Client L) (ctx : Context)
  (req : option Request) (v : Value) (w w1 w2 w3 wf : World)
  (resp resp' : option nat) (cb : ResponseCallbackFunc)
  (deferFunc : option nat -> M unit) (e : error) :
  limiter_Wait c ctx = None ->
  client_Do c ctx req w = Ret (resp, None) w1 ->
  manage_body c resp w1 = Ret deferFunc w2 ->
  ResponseCallback c = Some cb ->
  cb resp w2 = Ret (resp', Some e) w3 ->
  deferFunc resp' w3 = Ret tt wf ->
  Do c ctx req v w = Ret (resp', Some e) wf
  /\ forall u : option UnmarshalerFunc,
       Do (set_Unmarshaler c u) ctx req v w = Ret (resp', Some e) wf.
Proof.
  intros Hlim Hsend Hmb Hcb Hres Hdf.
  assert (Hall : forall c0 : Client L,
            limiter_Wait c0 ctx = None ->
            client_Do c0 ctx req w = Ret (resp, None) w1 ->
            manage_body c0 resp w1 = Ret deferFunc w2 ->
            ResponseCallback c0 = Some cb ->
            Do c0 ctx req v w = Ret (resp', Some e) wf).
  { intros c0 Hlim0 Hsend0 Hmb0 Hcb0.
    rewrite (Do_admitted c0 ctx req v w w1 resp Hlim0 Hsend0), Hmb0.
    unfold Do_protected. rewrite Hcb0, Hres. unfold run_deferred.
    rewrite Hdf. reflexivity. }
  split; [apply Hall; assumption|].
  intros u. apply Hall; assumption.
Qed.

(** A 404 answer and a client whose unmarshaler was set to nil. *)
Lemma Do_callback_error_skips_unmarshaler_witness :
  exists wf,
    Do (sample_client (answer 404 "404 Not Found" (Some good_body)) false)
       background (Some sample_request) (VPtr TString 0) empty_world
    = Ret (Some 0%nat, Some (errors_New "404 Not Found")) wf
    /\ forall u : option UnmarshalerFunc,
         Do (set_Unmarshaler
               (sample_client (answer 404 "404 Not Found" (Some good_body)) false) u)
            background (Some sample_request) (VPtr TString 0) empty_world
         = Ret (Some 0%nat, Some (errors_New "404 Not Found")) wf.
Proof.
  eexists.
  eapply (Do_callback_error_skips_unmarshaler
            (sample_client (answer 404 "404 Not Found" (Some good_body)) false)
            background (Some sample_request) (VPtr TString 0) empty_world
            _ _ _ _ (Some 0%nat) (Some 0%nat) responseCallback defer_close
            (errors_New "404 Not Found"));
    reflexivity.
Defined.

(** X9. A response callback that returns a nil response makes [Do] panic,
    whether it returns an error with it or not: with an error, the deferred
    closure dereferences the nil response; without, the unmarshaler's
    argument does, or the nil check of the unmarshaler fires, and the
    deferred closure panics again. *)
Theorem Do_nil_response_panics {L} (c : Client L) (ctx : Context)
  (req : option Request) (v : Value) (w w1 w2 w3 : World)
  (resp : option nat) (cb : ResponseCallbackFunc)
  (deferFunc : option nat -> M unit) (cerr : option error) :
  limiter_Wait c ctx = None ->
  client_Do c ctx req w = Ret (resp, None) w1 ->
  manage_body c resp w1 = Ret deferFunc w2 ->
  ResponseCallback c = Some cb ->
  cb resp w2 = Ret (None, cerr) w3 ->
  Do c ctx req v w = Panic nil_deref w3.
Proof.
  intros Hlim Hsend Hmb Hcb Hres.
  pose proof (deferFunc_nil_response deferFunc w3 (manage_body_shape _ _ _ _ _ Hmb))
    as Hdf.
  rewrite (Do_admitted c ctx req v w w1 resp Hlim Hsend), Hmb.
  unfold Do_protected. rewrite Hcb, Hres.
  destruct cerr as [e|].
  - unfold run_deferred. rewrite Hdf. reflexivity.
  - destruct (Unmarshaler c) as [um|]; unfold run_deferred, bind, get_Body;
      rewrite Hdf; reflexivity.
Qed.

Lemma Do_nil_response_panics_witness :
  Do (set_ResponseCallback
        (sample_client (answer 200 "200 OK" (Some good_body)) false)
        (Some (fun _ => ret (None, Some (errors_New "rejected")))))
     background (Some sample_request) VNil empty_world
  = Panic nil_deref
          (mkWorld [good_body] [mkResponse 200 "200 OK" (RCref 0)] [] []
                   [(background, sample_request)]).
Proof.
  eapply (Do_nil_response_panics
            (set_ResponseCallback
               (sample_client (answer 200 "200 OK" (Some good_body)) false)
               (Some (fun _ => ret (None, Some (errors_New "rejected")))))
            background (Some sample_request) VNil empty_world
            _ _ _ (Some 0%nat) _ defer_close (Some (errors_New "rejected")));
    reflexivity.
Defined.

(** X10. The nil checks of [Do] come after the [defer]: when [Do] panics
    on a nil [ResponseCallback], or on a nil [Unmarshaler] after the default
    callback has let a 2xx response through, the body of the response has
    been closed all the same, and reading it afterwards fails (the body not
    kept, a stream of the transport whose [Close] does not fail). *)
Theorem Do_panic_closes_body {L} (c : Client L) (ctx : Context)
  (req : option Request) (v : Value) (w w1 : World) (l k : nat)
  (R : Response) (s : Stream) :
  keepResponseBody c = false ->
  limiter_Wait c ctx = None ->
  client_Do c ctx req w = Ret (Some l, None) w1 ->
  resps w1 !! l = Some R ->
  Body R = RCref k ->
  streams w1 !! k = Some s ->
  skind s = NetBody -> scerr s = None ->
  (ResponseCallback c = None
   \/ (ResponseCallback c = Some responseCallback
       /\ status_2xx (StatusCode R) /\ Unmarshaler c = None)) ->
  exists msg wf,
    Do c ctx req v w = Panic msg wf
    /\ (msg = "ResponseCallback is nil" \/ msg = "Unmarshaler is nil")
    /\ ReadAll (RCref k) wf = Ret ([], Some errBodyReadAfterClose) wf.
Proof.
  intros Hk Hlim Hsend HR Hb Hs Hkind Hce Hcase.
  rewrite (Do_admitted c ctx req v w w1 (Some l) Hlim Hsend).
  rewrite (manage_body_close c (Some l) w1 Hk).
  destruct (Close (RCref k) w1) as [cerr w5|] eqn:Hclose;
    [|rewrite (Close_ref _ _ _ Hs) in Hclose; discriminate].
  destruct (ReadAll_after_close w1 w5 k s cerr Hs Hkind Hce Hclose) as [_ Hread].
  assert (Hdf : defer_close (Some l) w1 = Ret tt w5).
  { unfold defer_close, bind, get_Body. rewrite HR, Hb, Hclose. reflexivity. }
  destruct Hcase as [Hcb|(Hcb & H2xx & Hum)].
  - exists "ResponseCallback is nil", w5. unfold Do_protected. rewrite Hcb.
    unfold run_deferred. rewrite Hdf. auto.
  - exists "Unmarshaler is nil", w5. unfold Do_protected.
    rewrite Hcb, (responseCallback_2xx w1 l R HR H2xx), Hum.
    unfold run_deferred. rewrite Hdf. auto.
Qed.

Lemma Do_panic_closes_body_witness :
  exists msg wf,
    Do (set_Unmarshaler
          (sample_client (answer 200 "200 OK" (Some good_body)) false) None)
       background (Some sample_request) VNil empty_world
    = Panic msg wf
    /\ (msg = "ResponseCallback is nil" \/ msg = "Unmarshaler is nil")
    /\ ReadAll (RCref 0) wf = Ret ([], Some errBodyReadAfterClose) wf.
Proof.
  apply (Do_panic_closes_body
           (set_Unmarshaler
              (sample_client (answer 200 "200 OK" (Some good_body)) false) None)
           background (Some sample_request) VNil empty_world
           (mkWorld [good_body] [mkResponse 200 "200 OK" (RCref 0)] [] []
                    [(background, sample_request)])
           0%nat 0%nat (mkResponse 200 "200 OK" (RCref 0)) good_body
           eq_refl eq_refl eq_refl eq_refl eq_refl eq_refl eq_refl eq_refl).
  right. split; [reflexivity|]. split; [unfold status_2xx; simpl; lia|reflexivity].
Defined.

Lemma Close_other (w w' : World) (k k' : nat) (cerr : option error) :
  Close (RCref k') w = Ret cerr w' -> k <> k' ->
  streams w' !! k = streams w !! k.
Proof.
  unfold Close. destruct (streams w !! k') as [s|]; [|discriminate].
  destruct (stream_close s). intros [= _ <-] Hne. simpl.
  apply list_lookup_insert_ne. congruence.
Qed.

(** X11. The deferred closure closes the body of the response that the
    callback returned. When the callback answers with another response,
    whose body is another stream, [Do] calls [Close] on that stream, so
    that the stream is as its [Close] leaves it and, for a stream of the
    transport whose [Close] does not fail, reading it afterwards fails;
    and [Do] leaves every other stream, the body that the transport
    delivered among them, as the unmarshaler left it. *)
Theorem Do_closes_returned_body_only {L} (c : Client L) (ctx : Context)
  (req : option Request) (v : Value) (w w1 w3 w4 : World) (l l' k' : nat)
  (cb : ResponseCallbackFunc) (um : UnmarshalerFunc)
  (R3 R4 : Response) (uerr : option error) (s' : Stream) :
  keepResponseBody c = false ->
  limiter_Wait c ctx = None ->
  client_Do c ctx req w = Ret (Some l, None) w1 ->
  ResponseCallback c = Some cb ->
  Unmarshaler c = Some um ->
  cb (Some l) w1 = Ret (Some l', None) w3 ->
  resps w3 !! l' = Some R3 ->
  um (Body R3) v (ContentType c) w3 = Ret uerr w4 ->
  resps w4 !! l' = Some R4 ->
  Body R4 = RCref k' ->
  streams w4 !! k' = Some s' ->
  exists wf,
    Do c ctx req v w = Ret (Some l', uerr) wf
    /\ Close (RCref k') w4 = Ret (snd (stream_close s')) wf
    /\ streams wf !! k' = Some (fst (stream_close s'))
    /\ (skind s' = NetBody -> scerr s' = None ->
        sclosed (fst (stream_close s')) = true
        /\ ReadAll (RCref k') wf = Ret ([], Some errBodyReadAfterClose) wf)
    /\ (forall k : nat, k <> k' -> streams wf !! k = streams w4 !! k).
Proof.
  intros Hk Hlim Hsend Hcb Hum Hres HR3 Hdec HR4 Hb Hs.
  rewrite (Do_admitted c ctx req v w w1 (Some l) Hlim Hsend).
  rewrite (manage_body_close c (Some l) w1 Hk).
  rewrite (Do_protected_decoded c v (Some l) cb um l' R3 _ w3 w4 uerr
             Hcb Hum Hres HR3 Hdec).
  pose proof (Close_ref w4 k' s' Hs) as Hclose.
  set (wf := set_streams w4 (<[k' := fst (stream_close s')]> (streams w4))) in *.
  exists wf. split; [|split; [|split; [|split]]].
  - unfold run_deferred, defer_close, bind, get_Body.
    rewrite HR4, Hb, Hclose. reflexivity.
  - exact Hclose.
  - simpl. apply list_lookup_insert_eq. eapply lookup_lt_Some; eauto.
  - intros Hkind Hce. split.
    + unfold stream_close. rewrite Hkind, Hce. reflexivity.
    + apply (ReadAll_after_close w4 wf k' s' _ Hs Hkind Hce Hclose).
  - intros k Hne. apply (Close_other w4 wf k k' _ Hclose Hne).
Qed.

(** The transport delivers a body at stream 0; the callback answers with a
    response whose body is stream 1. After [Do], stream 1 is closed and
    cannot be read, and stream 0 is still open. *)
Lemma Do_closes_returned_body_only_witness :
  exists wf,
    Do (set_ResponseCallback
          (sample_client (answer 200 "200 OK" (Some good_body)) false)
          (Some substitute_response))
       background (Some sample_request) VNil empty_world
    = Ret (Some 1%nat, None) wf
    /\ streams wf !! 1%nat = Some (mkStream NetBody hello None None true)
    /\ ReadAll (RCref 1) wf = Ret ([], Some errBodyReadAfterClose) wf
    /\ streams wf !! 0%nat = Some good_body.
Proof.
  destruct (Do_closes_returned_body_only
              (set_ResponseCallback
                 (sample_client (answer 200 "200 OK" (Some good_body)) false)
                 (Some substitute_response))
              background (Some sample_request) VNil empty_world
              (mkWorld [good_body] [mkResponse 200 "200 OK" (RCref 0)] [] []
                       [(background, sample_request)])
              (mkWorld [good_body; good_body]
                       [mkResponse 200 "200 OK" (RCref 0);
                        mkResponse 200 "200 OK" (RCref 1)] [] []
                       [(background, sample_request)])
              (mkWorld [good_body; good_body]
                       [mkResponse 200 "200 OK" (RCref 0);
                        mkResponse 200 "200 OK" (RCref 1)] [] []
                       [(background, sample_request)])
              0%nat 1%nat 1%nat substitute_response (unmarshal Standin.lib)
              (mkResponse 200 "200 OK" (RCref 1)) (mkResponse 200 "200 OK" (RCref 1))
              None good_body eq_refl eq_refl eq_refl eq_refl eq_refl eq_refl
              eq_refl eq_refl eq_refl eq_refl eq_refl)
    as (wf & HDo & _ & Hk' & Hclosed & Hother).
  exists wf. split; [exact HDo|]. split; [exact Hk'|]. split.
  - apply (Hclosed eq_refl eq_refl).
  - rewrite (Hother 0%nat) by discriminate. reflexivity.
Defined.

(** X12. With the body kept, a response without content keeps the
    sentinel: the split allocates nothing and changes nothing in the store
    before the callback runs, and when the callback and the unmarshaler
    return, the body of the response that [Do] returns is [http.NoBody]
    itself. *)
Theorem Do_keep_NoBody {L} (c : Client L) (ctx : Context)
  (req : option Request) (v : Value) (w w1 w3 w4 : World) (l l' : nat)
  (R R3 R4 : Response) (cb : ResponseCallbackFunc) (um : UnmarshalerFunc)
  (uerr : option error) :
  keepResponseBody c = true ->
  limiter_Wait c ctx = None ->
  client_Do c ctx req w = Ret (Some l, None) w1 ->
  resps w1 !! l = Some R ->
  Body R = NoBody ->
  ResponseCallback c = Some cb ->
  Unmarshaler c = Some um ->
  cb (Some l) w1 = Ret (Some l', None) w3 ->
  resps w3 !! l' = Some R3 ->
  um (Body R3) v (ContentType c) w3 = Ret uerr w4 ->
  resps w4 !! l' = Some R4 ->
  manage_body c (Some l) w1 = Ret (defer_restore NoBody) w1
  /\ Do c ctx req v w
     = Ret (Some l', uerr) (set_resps w4 (<[l' := set_Body R4 NoBody]> (resps w4))).
Proof.
  intros Hk Hlim Hsend HR Hb Hcb Hum Hres HR3 Hdec HR4.
  assert (Hmb : manage_body c (Some l) w1 = Ret (defer_restore NoBody) w1).
  { rewrite (manage_body_keep c l R w1 w1 NoBody NoBody None Hk HR).
    - rewrite <- Hb, set_Body_same, (list_insert_id _ _ _ HR), set_resps_same.
      reflexivity.
    - rewrite Hb. reflexivity.
    - apply only_streams_refl. }
  split; [exact Hmb|].
  rewrite (Do_admitted c ctx req v w w1 (Some l) Hlim Hsend), Hmb.
  rewrite (Do_protected_decoded c v (Some l) cb um l' R3 _ w3 w4 uerr
             Hcb Hum Hres HR3 Hdec).
  apply (run_deferred_restore _ NoBody l' R4 w4 HR4).
Qed.

Lemma Do_keep_NoBody_witness :
  let w1 := mkWorld [] [mkResponse 204 "204 No Content" NoBody] [] []
                    [(background, sample_request)] in
  manage_body (sample_client (answer 204 "204 No Content" None) true) (Some 0%nat) w1
  = Ret (defer_restore NoBody) w1
  /\ Do (sample_client (answer 204 "204 No Content" None) true)
        background (Some sample_request) VNil empty_world
     = Ret (Some 0%nat, None) w1.
Proof.
  intros w1.
  apply (Do_keep_NoBody
           (sample_client (answer 204 "204 No Content" None) true)
           background (Some sample_request) VNil empty_world w1 w1 w1
           0%nat 0%nat (mkResponse 204 "204 No Content" NoBody)
           (mkResponse 204 "204 No Content" NoBody)
           (mkResponse 204 "204 No Content" NoBody)
           responseCallback (unmarshal Standin.lib) None
           eq_refl eq_refl eq_refl eq_refl eq_refl eq_refl eq_refl eq_refl
           eq_refl eq_refl eq_refl).
Defined.

(** ** [Do]: decoding and keeping the body *)

Lemma unmarshal_text_string (L : Lib) (r : ReadCloser) (l : nat) (w w' : World)
  (d : bytes) :
  is_Some (cells w !! l) ->
  ReadAll r w = Ret (d, None) w' ->
  unmarshal L r (VPtr TString l) ContentTypeText w
  = Ret None (set_cells w' (<[l := VString (string_of_list_byte d)]> (cells w'))).
Proof.
  intros [x Hx] Hr. unfold unmarshal. simpl.
  unfold unmarshal_text, bind. rewrite Hr. unfold store_cell.
  rewrite (ReadAll_cells _ _ _ _ Hr), Hx. reflexivity.
Qed.

(** X13. With the body kept, the text content type and the default
    callback and unmarshaler, a 2xx response whose body can be read and
    closed is decoded and kept at once: [Do] returns it with no error, the
    string that the target points to is the text of the body, and the
    caller reads the same bytes from the body of the response. *)
Theorem Do_keep_body_decodes_and_keeps {L} (c : Client L) (ctx : Context)
  (req : option Request) (w w1 : World) (l k lc : nat) (R : Response)
  (s s' s'' : Stream) (d : bytes) :
  keepResponseBody c = true ->
  ContentType c = ContentTypeText ->
  ResponseCallback c = Some responseCallback ->
  Unmarshaler c = Some (unmarshal L) ->
  limiter_Wait c ctx = None ->
  client_Do c ctx req w = Ret (Some l, None) w1 ->
  resps w1 !! l = Some R ->
  status_2xx (StatusCode R) ->
  Body R = RCref k ->
  streams w1 !! k = Some s ->
  stream_read_all s = (s', (d, None)) ->
  stream_close s' = (s'', None) ->
  is_Some (cells w1 !! lc) ->
  exists wf R' wr,
    Do c ctx req (VPtr TString lc) w = Ret (Some l, None) wf
    /\ cells wf !! lc = Some (VString (string_of_list_byte d))
    /\ resps wf !! l = Some R'
    /\ ReadAll (Body R') wf = Ret (d, None) wr.
Proof.
  intros Hk Hct Hcb Hum Hlim Hsend HR H2xx Hb Hs Hr Hc Hcell.
  pose proof (lookup_lt_Some _ _ _ HR) as Hlt.
  pose proof (lookup_lt_Some _ _ _ Hs) as Hklt.
  set (n := length (streams w1)).
  set (copy := mkStream NopCloser d None None false).
  pose proof (drainBody_success w1 k s s' s'' d Hs Hr Hc) as Hd.
  fold n copy in Hd.
  set (w2 := set_streams w1 (<[k := s'']> (streams w1) ++ [copy; copy])) in *.
  rewrite <- Hb in Hd.
  assert (Hos : only_streams w1 w2) by apply only_streams_set.
  rewrite (Do_admitted c ctx req _ w w1 (Some l) Hlim Hsend).
  rewrite (manage_body_keep c l R w1 w2 _ _ None Hk HR Hd Hos).
  set (R3 := set_Body R (RCref (S n))).
  set (w3 := set_resps w2 (<[l := R3]> (resps w2))).
  assert (HR3 : resps w3 !! l = Some R3).
  { simpl. apply list_lookup_insert_eq. assumption. }
  assert (Hlen : length (<[k := s'']> (streams w1)) = n) by apply length_insert.
  assert (Hn : streams w3 !! n = Some copy).
  { simpl. apply list_lookup_middle. auto. }
  assert (HSn : streams w3 !! S n = Some copy).
  { simpl. rewrite lookup_app_r by lia. rewrite Hlen.
    replace (S n - n)%nat with 1%nat by lia. reflexivity. }
  pose proof (ReadAll_copy w3 (S n) d HSn) as Hread.
  set (w4 := set_streams w3 (<[S n := mkStream NopCloser [] None None false]> (streams w3)))
    in *.
  assert (Hdec : unmarshal L (Body R3) (VPtr TString lc) (ContentType c) w3
                 = Ret None (set_cells w4 (<[lc := VString (string_of_list_byte d)]>
                                             (cells w4)))).
  { rewrite Hct. apply unmarshal_text_string; assumption. }
  set (w5 := set_cells w4 (<[lc := VString (string_of_list_byte d)]> (cells w4))) in *.
  rewrite (Do_protected_decoded c _ (Some l) responseCallback (unmarshal L) l R3
             w3 w3 w5 None Hcb Hum (responseCallback_2xx w3 l R3 HR3 H2xx) HR3 Hdec).
  assert (HR5 : resps w5 !! l = Some R3) by exact HR3.
  rewrite (run_deferred_restore _ (RCref n) l R3 w5 HR5).
  eexists. exists (set_Body R3 (RCref n)). eexists.
  split; [reflexivity|]. split; [|split].
  - simpl. apply list_lookup_insert_eq.
    destruct Hcell as [x Hx]. eapply lookup_lt_Some; eauto.
  - simpl. apply list_lookup_insert_eq. rewrite length_insert. assumption.
  - apply ReadAll_copy. simpl.
    rewrite list_lookup_insert_ne by lia. exact Hn.
Qed.

Lemma Do_keep_body_decodes_and_keeps_witness :
  exists wf R' wr,
    Do (mkClient Standin.lib (answer 200 "200 OK" (Some good_body)) None
                 "https://hostname.domain" ContentTypeText EmptyString EmptyString
                 true None (Some (marshal Standin.lib)) (Some (unmarshal Standin.lib))
                 (Some requestCallback) (Some responseCallback))
       background (Some sample_request) (VPtr TString 0)
       (set_cells empty_world [VString EmptyString])
    = Ret (Some 0%nat, None) wf
    /\ cells wf !! 0%nat = Some (VString "hello")
    /\ resps wf !! 0%nat = Some R'
    /\ ReadAll (Body R') wf = Ret (hello, None) wr.
Proof.
  apply (Do_keep_body_decodes_and_keeps
           (mkClient Standin.lib (answer 200 "200 OK" (Some good_body)) None
                     "https://hostname.domain" ContentTypeText EmptyString EmptyString
                     true None (Some (marshal Standin.lib)) (Some (unmarshal Standin.lib))
                     (Some requestCallback) (Some responseCallback))
           background (Some sample_request)
           (set_cells empty_world [VString EmptyString])
           (mkWorld [good_body] [mkResponse 200 "200 OK" (RCref 0)]
                    [VString EmptyString] [] [(background, sample_request)])
           0%nat 0%nat 0%nat (mkResponse 200 "200 OK" (RCref 0)) good_body
           (mkStream NetBody [] None None false)
           (mkStream NetBody [] None None true) hello
           eq_refl eq_refl eq_refl eq_refl eq_refl eq_refl eq_refl).
  - unfold status_2xx. simpl. lia.
  - reflexivity.
  - reflexivity.
  - reflexivity.
  - reflexivity.
  - eexists. reflexivity.
Defined.

(** ** A call that discards the body: [PostImpl.Delete] *)

(** With the default callback and unmarshaler and a nil target, [Do]
    returns the verdict on the status, for either setting of the body
    option. *)
Lemma Do_discard {L} (c : Client L) (ctx : Context) (req : option Request)
  (w w1 : World) (l : nat) (R : Response) :
  ResponseCallback c = Some responseCallback ->
  Unmarshaler c = Some (unmarshal L) ->
  limiter_Wait c ctx = None ->
  client_Do c ctx req w = Ret (Some l, None) w1 ->
  resps w1 !! l = Some R ->
  body_present w1 (Body R) ->
  exists wf, Do c ctx req VNil w = Ret (Some l, status_verdict R) wf.
Proof.
  intros Hcb Hum Hlim Hsend HR Hb.
  pose proof (lookup_lt_Some _ _ _ HR) as Hlt.
  rewrite (Do_admitted c ctx req VNil w w1 (Some l) Hlim Hsend).
  assert (Hstep : forall (w3 : World) (R3 : Response),
            resps w3 !! l = Some R3 ->
            StatusCode R3 = StatusCode R -> Status R3 = Status R ->
            Do_protected c VNil (Some l) w3
            = (Some l, Ret (Some l, status_verdict R) w3)).
  { intros w3 R3 HR3 Hcode Hstat. unfold status_verdict.
    destruct ((200 <=? StatusCode R) && (StatusCode R <=? 299)) eqn:Ht.
    - apply (Do_protected_decoded c VNil (Some l) responseCallback (unmarshal L)
               l R3 w3 w3 w3 None Hcb Hum); auto.
      apply (responseCallback_2xx w3 l R3 HR3).
      rewrite Hcode. apply status_2xx_test. exact Ht.
    - unfold Do_protected. rewrite Hcb.
      rewrite (responseCallback_other w3 l R3 HR3), Hstat; [reflexivity|].
      rewrite Hcode. intros H2. apply status_2xx_test in H2. congruence. }
  destruct (keepResponseBody c) eqn:Hk.
  - destruct (drainBody_present _ _ Hb) as (save & body' & err & w2 & Hd & Hos).
    rewrite (manage_body_keep c l R w1 w2 save body' err Hk HR Hd Hos).
    assert (HR3 : resps (set_resps w2 (<[l := set_Body R body']> (resps w2))) !! l
                  = Some (set_Body R body')).
    { simpl. apply list_lookup_insert_eq.
      rewrite (only_streams_resps _ _ Hos). assumption. }
    rewrite (Hstep _ _ HR3 eq_refl eq_refl).
    rewrite (run_deferred_restore _ save l _ _ HR3). eexists. reflexivity.
  - rewrite (manage_body_close c (Some l) w1 Hk).
    rewrite (Hstep w1 R HR eq_refl eq_refl).
    destruct (defer_close_present _ _ _ HR Hb) as (w' & Hdc & _).
    unfold run_deferred. rewrite Hdc. eexists. reflexivity.
Qed.

Lemma client_after_NewRequest_fields {L} (c : Client L) (ct : string) :
  let c' := client_after_NewRequest c ct in
  client c' = client c /\ limiter c' = limiter c
  /\ Unmarshaler c' = Unmarshaler c /\ ResponseCallback c' = ResponseCallback c.
Proof.
  unfold client_after_NewRequest. destruct (header c); simpl; auto.
Qed.

(** X14. [Delete] of the example service, on a client with the default
    collaborators: when the address of the post parses, the limiter admits
    the call and the transport delivers a response with its body, [Delete]
    returns the response with no error for a 2xx status, and for any other
    status a nil response with the error of the status line. The response
    that [Do] had returned with the error is dropped. *)
Theorem PostImpl_Delete_result {L} (c : Client L) (ctx : Context) (id : Z)
  (w w1 : World) (rel : URL L) (l : nat) (R : Response) :
  with_defaults c ->
  url_Parse L (posts_path id) = inr rel ->
  http_NewRequest_err L "DELETE" (URL_String L (ResolveReference L (BaseURL c) rel))
  = None ->
  limiter_Wait c ctx = None ->
  let rq := assembled_request c "DELETE" rel (ContentType c) [] in
  client c ctx rq (log_call w (ctx, rq)) = Ret (Some l, None) w1 ->
  resps w1 !! l = Some R ->
  body_present w1 (Body R) ->
  exists wf,
    PostImpl_Delete c ctx id w
    = Ret (client_after_NewRequest c (ContentType c),
           (match status_verdict R with None => Some l | Some _ => None end,
            status_verdict R)) wf.
Proof.
  intros (Hm & Hum & Hq & Hcb & _) Hu Hnew Hlim rq Hsend HR Hb.
  pose proof (NewRequest_assembled c "DELETE" (posts_path id) VNil rel (marshal L)
                new_Buffer (ContentType c) Hu Hm eq_refl Hnew) as HNR.
  rewrite Hq in HNR. unfold requestCallback in HNR. cbn [wbuf new_Buffer] in HNR.
  fold rq in HNR.
  destruct (client_after_NewRequest_fields c (ContentType c))
    as (Hcl & Hli & Hum' & Hcb').
  set (c' := client_after_NewRequest c (ContentType c)) in *.
  assert (HDo : exists wf, Do c' ctx (Some rq) VNil w = Ret (Some l, status_verdict R) wf).
  { apply (Do_discard c' ctx (Some rq) w w1 l R); try congruence.
    - unfold limiter_Wait. rewrite Hli. exact Hlim.
    - unfold client_Do. rewrite Hcl. exact Hsend. }
  destruct HDo as [wf HDo]. exists wf.
  unfold PostImpl_Delete. rewrite HNR, HDo.
  destruct (status_verdict R); reflexivity.
Qed.

(** The post is not there: the server answers 404. *)
Lemma PostImpl_Delete_result_witness :
  exists wf,
    PostImpl_Delete (sample_client (answer 404 "404 Not Found" (Some good_body)) false)
                    background 1 empty_world
    = Ret (sample_client (answer 404 "404 Not Found" (Some good_body)) false,
           (None, Some (errors_New "404 Not Found"))) wf.
Proof.
  apply (PostImpl_Delete_result
           (sample_client (answer 404 "404 Not Found" (Some good_body)) false)
           background 1 empty_world
           (mkWorld [good_body] [mkResponse 404 "404 Not Found" (RCref 0)] [] []
              [(background,
                mkRequest "DELETE" "https://hostname.domain/posts/1"
                          [("Content-Type", ["application/json"]);
                           ("Accept", ["application/json"])] [])])
           "/posts/1" 0%nat (mkResponse 404 "404 Not Found" (RCref 0))).
  - unfold with_defaults. simpl. repeat split. discriminate.
  - reflexivity.
  - reflexivity.
  - reflexivity.
  - reflexivity.
  - reflexivity.
  - simpl. eexists. reflexivity.
Defined.

(** ** The codec: round trip and raw copy *)

(** X15. The text codec, there and back: what [marshal] writes for a
    payload into a fresh buffer, [unmarshal] stores as a string in the
    target when it reads these bytes from a body; the string is the
    rendering that [fmt] gives of the payload, so a payload that renders as
    itself comes back unchanged. *)
Theorem text_round_trip (L : Lib) (v : Value) (w : World) (k l : nat)
  (s s' : Stream) (buf : Writer) (ct : string) (err : option error) :
  is_nil v = false ->
  marshal L new_Buffer v ContentTypeText = (buf, (ct, err)) ->
  streams w !! k = Some s ->
  stream_read_all s = (s', (wbuf buf, None)) ->
  is_Some (cells w !! l) ->
  err = None /\ ct = ContentTypeText
  /\ exists w',
       unmarshal L (RCref k) (VPtr TString l) ContentTypeText w = Ret None w'
       /\ cells w' !! l = Some (VString (fmt_Sprint L v)).
Proof.
  intros Hv Hm Hs Hr Hcell.
  unfold marshal in Hm. rewrite Hv in Hm. simpl in Hm.
  injection Hm as <- <- <-. split; [reflexivity|]. split; [reflexivity|].
  pose proof (ReadAll_ref w k s Hs) as Hread. rewrite Hr in Hread.
  cbn [fst snd wbuf] in Hread. rewrite ?app_nil_l in Hread.
  eexists. split.
  - apply (unmarshal_text_string L (RCref k) l w _ _ Hcell Hread).
  - simpl. rewrite string_of_list_byte_of_string.
    apply list_lookup_insert_eq. destruct Hcell as [x Hx].
    eapply lookup_lt_Some; eauto.
Qed.

(** The message of the tests, sent as text and read back into a string. *)
Lemma text_round_trip_witness :
  @None error = None /\ ContentTypeText = ContentTypeText
  /\ exists w',
       unmarshal Standin.lib (RCref 0) (VPtr TString 0) ContentTypeText
         (mkWorld [mkStream NetBody (list_byte_of_string "it's only rock'n'roll")
                            None None false] [] [VString EmptyString] [] [])
       = Ret None w'
       /\ cells w' !! 0%nat = Some (VString "it's only rock'n'roll").
Proof.
  apply (text_round_trip Standin.lib
           (VStringer "message" "it's only rock'n'roll")
           (mkWorld [mkStream NetBody (list_byte_of_string "it's only rock'n'roll")
                              None None false] [] [VString EmptyString] [] [])
           0%nat 0%nat _ _ _ _ _ eq_refl eq_refl eq_refl eq_refl).
  eexists. reflexivity.
Defined.

(** X16. A writer as target takes the body as it is, whatever the content
    type, bound to a codec or not: when the body is read without error and
    the writer accepts what it is given, [unmarshal] returns no error and
    the writer has received the bytes of the body after what it held; no
    target cell is touched. *)
Theorem unmarshal_writer_copies (L : Lib) (r : ReadCloser) (l : nat)
  (mediaType : string) (w w' : World) (d : bytes) (wr : Writer) :
  ReadAll r w = Ret (d, None) w' ->
  writers w !! l = Some wr ->
  wfail wr = None ->
  exists wf,
    unmarshal L r (VWriter l) mediaType w = Ret None wf
    /\ writers wf !! l = Some (mkWriter (wbuf wr ++ d) None)
    /\ cells wf = cells w
    /\ streams wf = streams w'.
Proof.
  intros Hr Hw Hf.
  pose proof (ReadAll_only_streams _ _ _ _ Hr) as Hos.
  assert (Hw' : writers w' !! l = Some wr) by (rewrite Hos; exact Hw).
  assert (Hc' : cells w' = cells w) by (rewrite Hos; reflexivity).
  unfold unmarshal, io_Copy, bind. rewrite Hr.
  destruct d as [|x d].
  - exists w'. split; [reflexivity|]. rewrite app_nil_r.
    destruct wr as [b f]. simpl in Hf. subst f. auto.
  - unfold write_to. rewrite Hw'. unfold Write. rewrite Hf.
    eexists. split; [reflexivity|]. simpl. repeat split; auto.
    apply list_lookup_insert_eq. eapply lookup_lt_Some; eauto.
Qed.

Lemma unmarshal_writer_copies_witness :
  exists wf,
    unmarshal Standin.lib (RCref 0) (VWriter 0) "unknown/unknown"
              (mkWorld [good_body] [] [] [new_Buffer] [])
    = Ret None wf
    /\ writers wf !! 0%nat = Some (mkWriter ([] ++ hello) None)
    /\ cells wf = []
    /\ streams wf = [mkStream NetBody [] None None false].
Proof.
  apply (unmarshal_writer_copies Standin.lib (RCref 0) 0%nat "unknown/unknown"
           (mkWorld [good_body] [] [] [new_Buffer] [])
           (mkWorld [mkStream NetBody [] None None false] [] [] [new_Buffer] [])
           hello new_Buffer eq_refl eq_refl eq_refl).
Defined.

(** ** [drainBody]: the original, and splitting again *)

(** X17. After a split that succeeded, the body that was given is used
    up: it is neither of the two results, and when it is a body of the
    transport it has been closed, so that reading it again fails. *)
Theorem drainBody_closes_original (w w' : World) (l : nat) (s : Stream)
  (r1 r2 : ReadCloser) :
  streams w !! l = Some s ->
  skind s = NetBody ->
  drainBody (RCref l) w = Ret (r1, r2, None) w' ->
  r1 <> RCref l /\ r2 <> RCref l
  /\ ReadAll (RCref l) w' = Ret ([], Some errBodyReadAfterClose) w'.
Proof.
  intros Hs Hkind.
  pose proof (lookup_lt_Some _ _ _ Hs) as Hlt.
  destruct (stream_read_all s) as [s' [d [e|]]] eqn:Hr.
  { rewrite (drainBody_read_failure _ _ _ _ _ _ Hs Hr). discriminate. }
  destruct (stream_close s') as [s'' [e|]] eqn:Hc.
  { rewrite (drainBody_close_failure _ _ _ _ _ _ _ Hs Hr Hc). discriminate. }
  rewrite (drainBody_success _ _ _ _ _ _ Hs Hr Hc). intros [= <- <- <-].
  split; [intros [= H]; lia|]. split; [intros [= H]; lia|].
  destruct (stream_read_all_drained _ _ _ Hr) as (-> & _ & _).
  unfold stream_close in Hc. cbn [skind scerr sdata srerr] in Hc.
  rewrite Hkind in Hc. destruct (scerr s); [discriminate|].
  injection Hc as <-.
  set (closed := mkStream NetBody [] None None true).
  assert (Hl : streams (set_streams w (<[l := closed]> (streams w)
                 ++ [mkStream NopCloser d None None false;
                     mkStream NopCloser d None None false])) !! l = Some closed).
  { simpl. rewrite lookup_app_l by (rewrite length_insert; assumption).
    apply list_lookup_insert_eq. assumption. }
  rewrite (ReadAll_ref _ _ _ Hl). cbn [stream_read_all closed skind sclosed fst snd].
  simpl. f_equal. f_equal.
  rewrite <- (list_insert_id _ _ _ Hl) at 2. reflexivity.
Qed.

Lemma drainBody_closes_original_witness :
  RCref 1 <> RCref 0 /\ RCref 2 <> RCref 0
  /\ ReadAll (RCref 0)
       (set_streams empty_world
          [mkStream NetBody [] None None true;
           mkStream NopCloser hello None None false;
           mkStream NopCloser hello None None false])
     = Ret ([], Some errBodyReadAfterClose)
           (set_streams empty_world
              [mkStream NetBody [] None None true;
               mkStream NopCloser hello None None false;
               mkStream NopCloser hello None None false]).
Proof.
  apply (drainBody_closes_original (set_streams empty_world [good_body]) _
           0%nat good_body (RCref 1) (RCref 2) eq_refl eq_refl eq_refl).
Defined.

(** X18. Splits nest: one half of a split can be split again (as the
    callback of the example does under a client that keeps the body), and
    the half that was put aside and the two new halves each deliver the
    bytes of the original body. *)
Theorem drainBody_twice (w : World) (l : nat) (s s' s'' : Stream) (d : bytes) :
  streams w !! l = Some s ->
  stream_read_all s = (s', (d, None)) ->
  stream_close s' = (s'', None) ->
  exists (k1 k2 k3 k4 : nat) (w1 w2 : World),
    drainBody (RCref l) w = Ret (RCref k1, RCref k2, None) w1
    /\ drainBody (RCref k2) w1 = Ret (RCref k3, RCref k4, None) w2
    /\ (exists wa, ReadAll (RCref k1) w2 = Ret (d, None) wa)
    /\ (exists wa, ReadAll (RCref k3) w2 = Ret (d, None) wa)
    /\ (exists wa, ReadAll (RCref k4) w2 = Ret (d, None) wa).
Proof.
  intros Hs Hr Hc.
  pose proof (lookup_lt_Some _ _ _ Hs) as Hlt.
  set (n := length (streams w)).
  set (copy := mkStream NopCloser d None None false).
  pose proof (drainBody_success w l s s' s'' d Hs Hr Hc) as Hd1.
  fold n copy in Hd1.
  set (w1 := set_streams w (<[l := s'']> (streams w) ++ [copy; copy])) in *.
  assert (Hlen : length (<[l := s'']> (streams w)) = n) by apply length_insert.
  assert (Hlen1 : length (streams w1) = S (S n)).
  { simpl. rewrite length_app, Hlen. simpl. lia. }
  assert (Hn : streams w1 !! n = Some copy).
  { simpl. apply list_lookup_middle. auto. }
  assert (HSn : streams w1 !! S n = Some copy).
  { simpl. rewrite lookup_app_r by lia. rewrite Hlen.
    replace (S n - n)%nat with 1%nat by lia. reflexivity. }
  pose proof (drainBody_success w1 (S n) copy
                (mkStream NopCloser [] None None false)
                (mkStream NopCloser [] None None false) d
                HSn eq_refl eq_refl) as Hd2.
  rewrite Hlen1 in Hd2.
  set (used := mkStream NopCloser [] None None false) in *.
  set (w2 := set_streams w1 (<[S n := used]> (streams w1) ++ [copy; copy])) in *.
  assert (Hlen2 : length (<[S n := used]> (streams w1)) = S (S n)).
  { rewrite length_insert. exact Hlen1. }
  exists n, (S n), (S (S n)), (S (S (S n))), w1, w2.
  split; [exact Hd1|]. split; [exact Hd2|].
  split; [|split]; eexists; apply ReadAll_copy;
    unfold w2; cbn [streams set_streams].
  - rewrite lookup_app_l by (rewrite Hlen2; lia).
    rewrite list_lookup_insert_ne by lia. exact Hn.
  - apply list_lookup_middle. rewrite Hlen2. reflexivity.
  - rewrite lookup_app_r by (rewrite Hlen2; lia). rewrite Hlen2.
    replace (S (S (S n)) - S (S n))%nat with 1%nat by lia. reflexivity.
Qed.

Lemma drainBody_twice_witness :
  exists (k1 k2 k3 k4 : nat) (w1 w2 : World),
    drainBody (RCref 0) (set_streams empty_world [good_body])
    = Ret (RCref k1, RCref k2, None) w1
    /\ drainBody (RCref k2) w1 = Ret (RCref k3, RCref k4, None) w2
    /\ (exists wa, ReadAll (RCref k1) w2 = Ret (hello, None) wa)
    /\ (exists wa, ReadAll (RCref k3) w2 = Ret (hello, None) wa)
    /\ (exists wa, ReadAll (RCref k4) w2 = Ret (hello, None) wa).
Proof.
  apply (drainBody_twice (set_streams empty_world [good_body]) 0%nat good_body
           _ _ hello eq_refl eq_refl eq_refl).
Defined.

(** ** [QueryOptions] *)

Lemma merge_Values_union (origValues newValues : Values) :
  merge_Values origValues newValues = newValues ∪ origValues.
Proof.
  unfold merge_Values.
  apply (map_fold_weak_ind (fun r (m : Values) => r = m ∪ origValues)).
  - rewrite (left_id_L ∅ (∪)). reflexivity.
  - intros k x m r _ ->. apply insert_union_l.
Qed.

Lemma merge_Values_lookup (origValues newValues : Values) (k : string) :
  merge_Values origValues newValues !! k =
  match newValues !! k with
  | Some x => Some x
  | None => origValues !! k
  end.
Proof.
  rewrite merge_Values_union.
  destruct (newValues !! k) as [x|] eqn:Hk.
  - apply lookup_union_Some_l. exact Hk.
  - apply lookup_union_r. exact Hk.
Qed.

(** X19. [QueryOptions] hands back the address it was given whenever it
    does not build a new one. A nil pointer as options returns the address
    with no error before the address is looked at, so also an address that
    does not parse; and every error, of the address or of the options,
    comes with the address unchanged. *)
Theorem QueryOptions_returns_input {L : Lib} (Q : QueryLib L) (u : string) :
  QueryOptions Q u QNilPointer = (u, None)
  /\ forall (opt : QueryOpt) (s : string) (e : error),
       QueryOptions Q u opt = (s, Some e) ->
       s = u
       /\ exists v, opt = QValue v
                    /\ (url_Parse L u = inl e
                        \/ ((exists origURL, url_Parse L u = inr origURL)
                            /\ query_Values Q v = inl e)).
Proof.
  split; [reflexivity|].
  intros opt s e. unfold QueryOptions.
  destruct opt as [|v]; [discriminate|].
  destruct (url_Parse L u) as [e0|origURL] eqn:Hu.
  - intros [= <- <-]. split; [reflexivity|]. exists v. auto.
  - destruct (query_Values Q v) as [e0|newValues] eqn:Hq; [|discriminate].
    intros [= <- <-]. split; [reflexivity|]. exists v. split; [reflexivity|].
    right. split; [eexists; reflexivity|exact Hq].
Qed.

(** X20. When the address parses and the options give their values,
    [QueryOptions] returns, with no error, the address with the query made
    of the merged values: for every key the values of the options when
    they have the key, and otherwise those the address had. *)
Theorem QueryOptions_merges {L : Lib} (Q : QueryLib L) (u : string) (v : Value)
  (origURL : URL L) (newValues : Values) :
  url_Parse L u = inr origURL ->
  query_Values Q v = inr newValues ->
  exists merged : Values,
    QueryOptions Q u (QValue v)
    = (URL_String L (URL_set_RawQuery Q origURL (Values_Encode Q merged)), None)
    /\ forall k : string,
         merged !! k = match newValues !! k with
                       | Some x => Some x
                       | None => URL_Query Q origURL !! k
                       end.
Proof.
  intros Hu Hq. exists (merge_Values (URL_Query Q origURL) newValues). split.
  - unfold QueryOptions. rewrite Hu, Hq. reflexivity.
  - intros k. apply merge_Values_lookup.
Qed.

Lemma QueryOptions_merges_witness :
  exists merged : Values,
    QueryOptions StandinQuery.qlib "https://hostname.domain"
                 (QValue (VStringer "options" "name=testHost"))
    = (String.append "https://hostname.domain"
         (String.append "?" (StandinQuery.Values_Encode merged)), None)
    /\ forall k : string,
         merged !! k
         = match ({[ "search" := ["name=testHost"] ]} : Values) !! k with
           | Some x => Some x
           | None => (∅ : Values) !! k
           end.
Proof.
  apply (QueryOptions_merges StandinQuery.qlib "https://hostname.domain"
           (VStringer "options" "name=testHost") "https://hostname.domain"
           {[ "search" := ["name=testHost"] ]} eq_refl eq_refl).
Defined.

(** The invalid address of the tests with nil options: the parse error and
    the address as it was. *)
Lemma QueryOptions_returns_input_witness :
  QueryOptions StandinQuery.qlib baseurlInvalid (QValue VNil)
  = (baseurlInvalid, Some (errors_New "invalid character in host name"))
  /\ baseurlInvalid = baseurlInvalid
  /\ QueryOptions StandinQuery.qlib baseurlInvalid QNilPointer = (baseurlInvalid, None).
Proof.
  split; [reflexivity|]. split.
  - apply (proj2 (QueryOptions_returns_input StandinQuery.qlib baseurlInvalid)
                 (QValue VNil) baseurlInvalid
                 (errors_New "invalid character in host name") eq_refl).
  - apply (proj1 (QueryOptions_returns_input StandinQuery.qlib baseurlInvalid)).
Defined.

(** ** The callback of the example *)

Lemma responseCallback_verdict (w : World) (l : nat) (R : Response) :
  resps w !! l = Some R ->
  responseCallback (Some l) w = Ret (Some l, status_verdict R) w.
Proof.
  intros HR. unfold responseCallback, status_verdict. rewrite HR.
  destruct ((200 <=? StatusCode R) && (StatusCode R <=? 299)); reflexivity.
Qed.

(** X21. The callback of [ExampleResponseCallbackFunc] is transparent for
    a body that can be read and closed: it prints the bytes of the body on
    the standard output, returns the response with the verdict that the
    default callback gives on its status, and leaves on the response a body
    from which the same bytes can still be read. *)
Theorem dump_ResponseCallback_keeps_body (stdout : nat) (w : World) (l k : nat)
  (R : Response) (s s' s'' : Stream) (d : bytes) (out : Writer) :
  resps w !! l = Some R ->
  Body R = RCref k ->
  streams w !! k = Some s ->
  stream_read_all s = (s', (d, None)) ->
  stream_close s' = (s'', None) ->
  writers w !! stdout = Some out ->
  wfail out = None ->
  exists wf R' wr,
    dump_ResponseCallback stdout (Some l) w = Ret (Some l, status_verdict R) wf
    /\ writers wf !! stdout = Some (mkWriter (wbuf out ++ d) None)
    /\ resps wf !! l = Some R'
    /\ StatusCode R' = StatusCode R /\ Status R' = Status R
    /\ ReadAll (Body R') wf = Ret (d, None) wr.
Proof.
  intros HR Hb Hs Hr Hc Hout Hf.
  pose proof (lookup_lt_Some _ _ _ HR) as Hlt.
  pose proof (lookup_lt_Some _ _ _ Hout) as Holt.
  set (n := length (streams w)).
  set (copy := mkStream NopCloser d None None false).
  pose proof (drainBody_success w k s s' s'' d Hs Hr Hc) as Hd.
  fold n copy in Hd.
  set (w2 := set_streams w (<[k := s'']> (streams w) ++ [copy; copy])) in *.
  set (R3 := set_Body R (RCref (S n))).
  set (w3 := set_resps w2 (<[l := R3]> (resps w2))).
  assert (HR3 : resps w3 !! l = Some R3).
  { simpl. apply list_lookup_insert_eq. assumption. }
  assert (Hlen : length (<[k := s'']> (streams w)) = n) by apply length_insert.
  assert (Hn : streams w3 !! n = Some copy).
  { simpl. apply list_lookup_middle. auto. }
  assert (HSn : streams w3 !! S n = Some copy).
  { simpl. rewrite lookup_app_r by lia. rewrite Hlen.
    replace (S n - n)%nat with 1%nat by lia. reflexivity. }
  pose proof (ReadAll_copy w3 (S n) d HSn) as Hread.
  set (w4 := set_streams w3 (<[S n := mkStream NopCloser [] None None false]> (streams w3)))
    in *.
  set (w5 := set_writers w4 (<[stdout := mkWriter (wbuf out ++ d) None]> (writers w4))).
  assert (Hwrite : write_to stdout d w4 = Ret None w5).
  { unfold write_to. change (writers w4) with (writers w). rewrite Hout.
    unfold Write. rewrite Hf. reflexivity. }
  set (R6 := set_Body R3 (RCref n)).
  set (w6 := set_resps w5 (<[l := R6]> (resps w5))).
  assert (HR6 : resps w6 !! l = Some R6).
  { simpl. apply list_lookup_insert_eq. rewrite length_insert. assumption. }
  exists w6, R6. eexists. split; [|split; [|split; [|split; [|split]]]].
  - unfold dump_ResponseCallback, bind.
    unfold get_Body at 1. rewrite HR, Hb, Hd.
    unfold put_Body at 1. change (resps w2) with (resps w). rewrite HR.
    fold R3. change (set_resps w2 (<[l := R3]> (resps w))) with w3.
    unfold get_Body. rewrite HR3. cbn [Body R3 set_Body].
    rewrite Hread. cbn [fst]. rewrite Hwrite.
    unfold put_Body. change (resps w5) with (resps w3). rewrite HR3.
    fold R6. change (set_resps w5 (<[l := R6]> (resps w3))) with w6.
    rewrite (responseCallback_verdict w6 l R6 HR6). reflexivity.
  - simpl. apply list_lookup_insert_eq. assumption.
  - exact HR6.
  - reflexivity.
  - reflexivity.
  - apply ReadAll_copy. simpl.
    rewrite list_lookup_insert_ne by lia. exact Hn.
Qed.

Lemma dump_ResponseCallback_keeps_body_witness :
  exists wf R' wr,
    dump_ResponseCallback 0 (Some 0%nat)
      (mkWorld [good_body] [mkResponse 200 "200 OK" (RCref 0)] [] [new_Buffer] [])
    = Ret (Some 0%nat, None) wf
    /\ writers wf !! 0%nat = Some (mkWriter ([] ++ hello) None)
    /\ resps wf !! 0%nat = Some R'
    /\ StatusCode R' = 200 /\ Status R' = "200 OK"
    /\ ReadAll (Body R') wf = Ret (hello, None) wr.
Proof.
  apply (dump_ResponseCallback_keeps_body 0%nat
           (mkWorld [good_body] [mkResponse 200 "200 OK" (RCref 0)] [] [new_Buffer] [])
           0%nat 0%nat (mkResponse 200 "200 OK" (RCref 0)) good_body _ _ hello
           new_Buffer eq_refl eq_refl eq_refl eq_refl eq_refl eq_refl eq_refl).
Defined.

Lemma dump_ResponseCallback_broken_body (stdout : nat) (w : World) (l k : nat)
  (R : Response) (s s' : Stream) (d : bytes) (e : error) (out : Writer) :
  resps w !! l = Some R ->
  Body R = RCref k ->
  streams w !! k = Some s ->
  stream_read_all s = (s', (d, Some e)) ->
  writers w !! stdout = Some out ->
  exists wf,
    dump_ResponseCallback stdout (Some l) w = Ret (Some l, status_verdict R) wf
    /\ resps wf !! l = Some (set_Body R RCnil).
Proof.
  intros HR Hb Hs Hr Hout.
  pose proof (lookup_lt_Some _ _ _ HR) as Hlt.
  pose proof (lookup_lt_Some _ _ _ Hs) as Hklt.
  pose proof (drainBody_read_failure w k s s' d e Hs Hr) as Hd.
  set (w2 := set_streams w (<[k := s']> (streams w))) in *.
  set (R3 := set_Body R (RCref k)).
  set (w3 := set_resps w2 (<[l := R3]> (resps w2))).
  assert (HR3 : resps w3 !! l = Some R3).
  { simpl. apply list_lookup_insert_eq. assumption. }
  assert (Hs3 : streams w3 !! k = Some s').
  { simpl. apply list_lookup_insert_eq. assumption. }
  pose proof (ReadAll_ref w3 k s' Hs3) as Hread.
  destruct (stream_read_all s') as [s2 rd] eqn:Hr2. cbn [fst snd] in Hread.
  set (w4 := set_streams w3 (<[k := s2]> (streams w3))) in *.
  destruct (Write out (fst rd)) as [out' werr] eqn:Hw.
  set (w5 := set_writers w4 (<[stdout := out']> (writers w4))).
  assert (Hwrite : write_to stdout (fst rd) w4 = Ret werr w5).
  { unfold write_to. change (writers w4) with (writers w). rewrite Hout, Hw.
    reflexivity. }
  set (R6 := set_Body R3 RCnil).
  set (w6 := set_resps w5 (<[l := R6]> (resps w5))).
  assert (HR6 : resps w6 !! l = Some R6).
  { simpl. apply list_lookup_insert_eq. rewrite length_insert. assumption. }
  exists w6. split.
  - unfold dump_ResponseCallback, bind.
    unfold get_Body at 1. rewrite HR, Hb, Hd.
    unfold put_Body at 1. change (resps w2) with (resps w). rewrite HR.
    fold R3. change (set_resps w2 (<[l := R3]> (resps w))) with w3.
    unfold get_Body. rewrite HR3. cbn [Body R3 set_Body].
    rewrite Hread, Hwrite.
    unfold put_Body. change (resps w5) with (resps w3). rewrite HR3.
    fold R6. change (set_resps w5 (<[l := R6]> (resps w3))) with w6.
    rewrite (responseCallback_verdict w6 l R6 HR6). reflexivity.
  - exact HR6.
Qed.

(** X22. The callback of the example drops the error of its split. When
    the body breaks while it is read, the callback leaves a nil body on the
    response, and [Do], on a client that does not keep the body, panics in
    its deferred [Close], whatever the status of the response, even for a
    caller that asked for no decoding. *)
Theorem Do_dump_callback_broken_body_panics {L} (c : Client L) (ctx : Context)
  (req : option Request) (w w1 : World) (stdout l k : nat) (R : Response)
  (s s' : Stream) (d : bytes) (e : error) (out : Writer) :
  keepResponseBody c = false ->
  ResponseCallback c = Some (dump_ResponseCallback stdout) ->
  Unmarshaler c = Some (unmarshal L) ->
  limiter_Wait c ctx = None ->
  client_Do c ctx req w = Ret (Some l, None) w1 ->
  resps w1 !! l = Some R ->
  Body R = RCref k ->
  streams w1 !! k = Some s ->
  stream_read_all s = (s', (d, Some e)) ->
  writers w1 !! stdout = Some out ->
  exists wf,
    Do c ctx req VNil w = Panic nil_deref wf
    /\ resps wf !! l = Some (set_Body R RCnil).
Proof.
  intros Hk Hcb Hum Hlim Hsend HR Hb Hs Hr Hout.
  destruct (dump_ResponseCallback_broken_body stdout w1 l k R s s' d e out
              HR Hb Hs Hr Hout) as (w6 & Hdump & HR6).
  exists w6. split; [|exact HR6].
  rewrite (Do_admitted c ctx req VNil w w1 (Some l) Hlim Hsend).
  rewrite (manage_body_close c (Some l) w1 Hk).
  unfold Do_protected. rewrite Hcb, Hdump.
  destruct (status_verdict R) as [e'|].
  - unfold run_deferred, defer_close, bind, get_Body. rewrite HR6. reflexivity.
  - rewrite Hum. unfold run_deferred, defer_close, bind, get_Body.
    rewrite HR6. simpl. rewrite HR6. reflexivity.
Qed.

Lemma Do_dump_callback_broken_body_panics_witness :
  exists wf,
    Do (set_ResponseCallback
          (sample_client (answer 200 "200 OK" (Some broken_body)) false)
          (Some (dump_ResponseCallback 0)))
       background (Some sample_request) VNil
       (set_writers empty_world [new_Buffer])
    = Panic nil_deref wf
    /\ resps wf !! 0%nat = Some (mkResponse 200 "200 OK" RCnil).
Proof.
  apply (Do_dump_callback_broken_body_panics
           (set_ResponseCallback
              (sample_client (answer 200 "200 OK" (Some broken_body)) false)
              (Some (dump_ResponseCallback 0)))
           background (Some sample_request)
           (set_writers empty_world [new_Buffer])
           (mkWorld [broken_body] [mkResponse 200 "200 OK" (RCref 0)] []
                    [new_Buffer] [(background, sample_request)])
           0%nat 0%nat 0%nat (mkResponse 200 "200 OK" (RCref 0)) broken_body
           _ hello (errors_New "unexpected EOF") new_Buffer
           eq_refl eq_refl eq_refl eq_refl eq_refl eq_refl eq_refl eq_refl
           eq_refl eq_refl).
Defined.

(** ** The codec: a body that fails while it is read *)

(** X23. When the body fails while it is read, the text codec returns the
    read error wrapped with the words "read into buffer", the read error
    being its cause, and the YAML codec returns the read error as it is,
    without decoding what was read; in both cases the target is left as it
    was. *)
Theorem unmarshal_read_error (L : Lib) (r : ReadCloser) (v : Value) (l : nat)
  (w w' : World) (d : bytes) (e : error) :
  ReadAll r w = Ret (d, Some e) w' ->
  (unmarshal L r (VPtr TString l) ContentTypeText w
   = Ret (Some (errors_Wrap e "read into buffer")) w'
   /\ Cause (errors_Wrap e "read into buffer") = Cause e
   /\ Error (errors_Wrap e "read into buffer")
      = String.append "read into buffer: " (Error e))
  /\ (is_nil v = false -> is_writer v = false ->
      unmarshal L r v ContentTypeYAML w = Ret (Some e) w')
  /\ cells w' = cells w.
Proof.
  intros Hr. split; [|split].
  - split; [|split; reflexivity].
    unfold unmarshal. simpl. unfold unmarshal_text, bind. rewrite Hr. reflexivity.
  - intros Hv Hw. unfold unmarshal.
    destruct v; try discriminate; simpl;
      unfold UnmarshalYAML, bind; rewrite Hr; reflexivity.
  - apply (ReadAll_cells _ _ _ _ Hr).
Qed.

Lemma unmarshal_read_error_witness :
  unmarshal Standin.lib (RCref 0) (VPtr TString 0) ContentTypeText
    (mkWorld [broken_body] [] [VString "before"] [] [])
  = Ret (Some (errors_Wrap (errors_New "unexpected EOF") "read into buffer"))
        (mkWorld [mkStream NetBody [] (Some (errors_New "unexpected EOF")) None false]
                 [] [VString "before"] [] [])
  /\ Error (errors_Wrap (errors_New "unexpected EOF") "read into buffer")
     = "read into buffer: unexpected EOF".
Proof.
  pose proof (unmarshal_read_error Standin.lib (RCref 0) VNil 0%nat
                (mkWorld [broken_body] [] [VString "before"] [] [])
                (mkWorld [mkStream NetBody [] (Some (errors_New "unexpected EOF"))
                                   None false]
                         [] [VString "before"] [] [])
                hello (errors_New "unexpected EOF") eq_refl)
    as ((Hu & _ & Herr) & _ & _).
  split; [exact Hu|exact Herr].
Defined.
